(** * Verification of the TTS service of ultimate-trivia
    (backend/apis/tts/__init__.py).

    Conventions of the embedding:
    - Python [bytes] are [list byte].
    - Python [str] values are Rocq [string]s, read as sequences of code
      points below 256 (Latin-1); every string of the module is ASCII.
    - Python integers are [Z] (unbounded, as in Python).
    - [struct.pack] returns [None] exactly when Python raises [struct.error]
      (a value outside the range of its unsigned field). *)

From Stdlib Require Import ZArith List String Ascii Strings.Byte Bool Lia Permutation Sorted.
Import ListNotations.
Open Scope string_scope.
Open Scope Z_scope.
Open Scope list_scope.

Notation "'let?' x := a 'in' b" :=
  (match a with Some x => b | None => None end)
  (at level 200, x name, a at level 100, b at level 200).

(* ------------------------------------------------------------------ *)
(** ** Bytes and [struct.pack] *)

Definition byte_of_Z (z : Z) : byte :=
  match Byte.of_N (Z.to_N (z mod 256)) with Some b => b | None => Byte.x00 end.

Definition Z_of_byte (b : byte) : Z := Z.of_N (Byte.to_N b).

(** The bytes of an ASCII literal such as [b"RIFF"]. *)
Definition bytes_of (s : string) : list byte := list_byte_of_string s.

(** Little-endian encoding of [x] on [width] bytes. *)
Fixpoint le_bytes (width : nat) (x : Z) : list byte :=
  match width with
  | O => []
  | S w => byte_of_Z (x mod 256) :: le_bytes w (x / 256)
  end.

(** Little-endian decoding, used to read header fields back. *)
Fixpoint read_le (bs : list byte) : Z :=
  match bs with
  | [] => 0
  | b :: rest => Z_of_byte b + 256 * read_le rest
  end.

(** The field codes of the format strings used by the module
    ([<] means little-endian, no padding). *)
Inductive field :=
| F4s (b : list byte)   (* 4s *)
| FH (x : Z)            (* H: unsigned 16 bits *)
| FI (x : Z).           (* I: unsigned 32 bits *)

Definition fits_uint (width : nat) (x : Z) : bool :=
  (0 <=? x) && (x <? 2 ^ (8 * Z.of_nat width)).

Definition pack_uint (width : nat) (x : Z) : option (list byte) :=
  if fits_uint width x then Some (le_bytes width x) else None.

Definition pack_field (f : field) : option (list byte) :=
  match f with
  | F4s b => Some (firstn 4 (b ++ repeat Byte.x00 4))
  | FH x => pack_uint 2 x
  | FI x => pack_uint 4 x
  end.

(** [struct.pack('<...', v1, ..., vn)]: all fields or [struct.error]. *)
Fixpoint struct_pack (fs : list field) : option (list byte) :=
  match fs with
  | [] => Some []
  | f :: rest =>
      let? b := pack_field f in
      let? bs := struct_pack rest in
      Some (b ++ bs)
  end.

(* ------------------------------------------------------------------ *)
(** ** [_pcm_to_wav] *)

(** Each [wav += struct.pack(...)] is one [struct_pack]; the first one
    that raises aborts the function. *)
Definition pcm_to_wav (pcm_data : list byte) (sample_rate channels sample_width : Z)
  : option (list byte) :=
  let data_size := Z.of_nat (List.length pcm_data) in
  let fmt_chunk_size := 16 in
  let riff_size := 36 + data_size in
  let? riff := struct_pack [FI riff_size] in
  let? fmt_size := struct_pack [FI fmt_chunk_size] in
  let? audio_format := struct_pack [FH 1] in
  let? nch := struct_pack [FH channels] in
  let? rate := struct_pack [FI sample_rate] in
  let? byte_rate := struct_pack [FI (sample_rate * channels * sample_width)] in
  let? block_align := struct_pack [FH (channels * sample_width)] in
  let? bits := struct_pack [FH (sample_width * 8)] in
  let? dsize := struct_pack [FI data_size] in
  Some (bytes_of "RIFF" ++ riff ++ bytes_of "WAVE"
        ++ bytes_of "fmt " ++ fmt_size ++ audio_format ++ nch ++ rate
        ++ byte_rate ++ block_align ++ bits
        ++ bytes_of "data" ++ dsize ++ pcm_data).

(* ------------------------------------------------------------------ *)
(** ** Python string operations *)

Definition code (c : ascii) : Z := Z.of_nat (nat_of_ascii c).

(** [str.isspace] on code points below 256. *)
Definition py_isspace (c : ascii) : bool :=
  let n := code c in
  ((9 <=? n) && (n <=? 13)) || ((28 <=? n) && (n <=? 32))
  || (n =? 133) || (n =? 160).

Fixpoint lstrip (s : string) : string :=
  match s with
  | EmptyString => EmptyString
  | String c rest => if py_isspace c then lstrip rest else s
  end.

Definition rev_string (s : string) : string :=
  string_of_list_ascii (rev (list_ascii_of_string s)).

(** [str.strip()] *)
Definition py_strip (s : string) : string :=
  rev_string (lstrip (rev_string (lstrip s))).

(** [str.lower()] on code points below 256: A-Z and the Latin-1
    capitals U+00C0..U+00DE except U+00D7. *)
Definition lower_char (c : ascii) : ascii :=
  let n := code c in
  if ((65 <=? n) && (n <=? 90)) || ((192 <=? n) && (n <=? 222) && negb (n =? 215))
  then ascii_of_nat (Z.to_nat (n + 32)) else c.

Fixpoint py_lower (s : string) : string :=
  match s with
  | EmptyString => EmptyString
  | String c rest => String (lower_char c) (py_lower rest)
  end.

(** [str.startswith(p)] *)
Definition startswith (s p : string) : bool := String.prefix p s.

(** [s.split(sep)] for a one-character separator. *)
Fixpoint py_split (sep : ascii) (s : string) : list string :=
  match s with
  | EmptyString => [EmptyString]
  | String c rest =>
      if Ascii.eqb c sep then EmptyString :: py_split sep rest
      else match py_split sep rest with
           | [] => [String c EmptyString]
           | w :: ws => String c w :: ws
           end
  end.

(** [s.split(sep, 1)[1]]: [None] is the [IndexError] when [sep] is absent. *)
Fixpoint after_first (sep : ascii) (s : string) : option string :=
  match s with
  | EmptyString => None
  | String c rest => if Ascii.eqb c sep then Some rest else after_first sep rest
  end.

Definition is_digit (c : ascii) : bool := (48 <=? code c) && (code c <=? 57).
Definition digit_val (c : ascii) : Z := code c - 48.

(** Digits with single underscores between them, as [int()] accepts. *)
Fixpoint int_digits (s : string) (acc : Z) (after_us : bool) : option Z :=
  match s with
  | EmptyString => if after_us then None else Some acc
  | String c rest =>
      if is_digit c then int_digits rest (10 * acc + digit_val c) false
      else if Ascii.eqb c "_" && negb after_us then int_digits rest acc true
      else None
  end.

Definition unsigned_int (s : string) : option Z :=
  match s with
  | String c rest => if is_digit c then int_digits rest (digit_val c) false else None
  | EmptyString => None
  end.

(** [int(s)] in base 10; [None] is the [ValueError]. *)
Definition py_int (s : string) : option Z :=
  match py_strip s with
  | String "-" rest => option_map Z.opp (unsigned_int rest)
  | String "+" rest => unsigned_int rest
  | t => unsigned_int t
  end.

(* ------------------------------------------------------------------ *)
(** ** [_convert_audio_to_wav] *)

(** One iteration of the parameter loop; the [try ... except (ValueError,
    IndexError): pass] keeps the current value when parsing fails. *)
Definition mime_step (acc : Z * Z) (param : string) : Z * Z :=
  let '(bits_per_sample, sample_rate) := acc in
  let param := py_strip param in
  if startswith (py_lower param) "rate=" then
    match after_first "=" param with
    | Some rate_str =>
        match py_int rate_str with
        | Some r => (bits_per_sample, r)
        | None => acc
        end
    | None => acc
    end
  else if startswith param "audio/L" then
    match after_first "L" param with
    | Some b =>
        match py_int b with
        | Some n => (n, sample_rate)
        | None => acc
        end
    | None => acc
    end
  else acc.

(** [(bits_per_sample, sample_rate)] after the loop, from the defaults
    16 and 24000. *)
Definition parse_mime (mime_type : string) : Z * Z :=
  fold_left mime_step (py_split ";" mime_type) (16, 24000).

Definition convert_audio_to_wav (audio_data : list byte) (mime_type : string)
  : option (list byte) :=
  let '(bits_per_sample, sample_rate) := parse_mime mime_type in
  let num_channels := 1 in
  let bytes_per_sample := bits_per_sample / 8 in
  let block_align := num_channels * bytes_per_sample in
  let byte_rate := sample_rate * block_align in
  let data_size := Z.of_nat (List.length audio_data) in
  let chunk_size := 36 + data_size in
  let? header := struct_pack
      [F4s (bytes_of "RIFF"); FI chunk_size; F4s (bytes_of "WAVE");
       F4s (bytes_of "fmt "); FI 16; FH 1; FH num_channels; FI sample_rate;
       FI byte_rate; FH block_align; FH bits_per_sample;
       F4s (bytes_of "data"); FI data_size] in
  Some (header ++ audio_data).

(** A parameter whose rate field does not parse as an integer (or that is
    not a rate field at all). *)
Definition rate_unparsed (param : string) : Prop :=
  let p := py_strip param in
  startswith (py_lower p) "rate=" = true ->
  match after_first "=" p with Some s => py_int s | None => None end = None.

(** A parameter whose bit-depth field ([audio/L<bits>]) does not parse as
    an integer (or that is not a bit-depth field at all). *)
Definition bits_unparsed (param : string) : Prop :=
  let p := py_strip param in
  startswith (py_lower p) "rate=" = false ->
  startswith p "audio/L" = true ->
  match after_first "L" p with Some s => py_int s | None => None end = None.

(* ------------------------------------------------------------------ *)
(** ** Reading a WAV header back

    A consumer's view of the 44-byte canonical header: the four tags and
    the little-endian fields at their fixed offsets. *)

Fixpoint bytes_eqb (a b : list byte) : bool :=
  match a, b with
  | [], [] => true
  | x :: a', y :: b' => Byte.eqb x y && bytes_eqb a' b'
  | _, _ => false
  end.

Definition tag_at (off : nat) (bs : list byte) : list byte := firstn 4 (skipn off bs).

Definition field_at (off width : nat) (bs : list byte) : Z :=
  read_le (firstn width (skipn off bs)).

Record wav_header := mk_wav_header {
  h_riff_size : Z; h_fmt_size : Z; h_audio_format : Z; h_channels : Z;
  h_sample_rate : Z; h_byte_rate : Z; h_block_align : Z; h_bits : Z;
  h_data_size : Z }.

Definition read_wav_header (bs : list byte) : option wav_header :=
  if (44 <=? List.length bs)%nat
     && bytes_eqb (tag_at 0 bs) (bytes_of "RIFF")
     && bytes_eqb (tag_at 8 bs) (bytes_of "WAVE")
     && bytes_eqb (tag_at 12 bs) (bytes_of "fmt ")
     && bytes_eqb (tag_at 36 bs) (bytes_of "data")
  then Some (mk_wav_header (field_at 4 4 bs) (field_at 16 4 bs) (field_at 20 2 bs)
               (field_at 22 2 bs) (field_at 24 4 bs) (field_at 28 4 bs)
               (field_at 32 2 bs) (field_at 34 2 bs) (field_at 40 4 bs))
  else None.

(** The payload after the header. *)
Definition wav_payload (bs : list byte) : list byte := skipn 44 bs.

(** A well-formed PCM container: the declared sizes match the actual
    sizes and the derived fields are consistent. *)
Definition wav_wellformed (bs : list byte) : bool :=
  match read_wav_header bs with
  | Some h =>
      let len := Z.of_nat (List.length bs) in
      (h_riff_size h =? len - 8) && (h_fmt_size h =? 16) && (h_audio_format h =? 1)
      && (h_block_align h =? h_channels h * (h_bits h / 8))
      && (h_byte_rate h =? h_sample_rate h * h_block_align h)
      && (h_data_size h =? len - 44)
  | None => false
  end.

(* ------------------------------------------------------------------ *)
(** ** Python values, dicts and the environment *)

(** The values a [voice_config] dict holds. *)
Inductive pyval :=
| VStr (s : string)
| VInt (z : Z)
| VBool (b : bool)
| VNone.

(** Truth value ([if v:], [v or default]). *)
Definition truthy (v : pyval) : bool :=
  match v with
  | VStr s => negb (String.eqb s "")
  | VInt z => negb (z =? 0)
  | VBool b => b
  | VNone => false
  end.

(** [v == "s"] *)
Definition is_str (v : pyval) (s : string) : bool :=
  match v with VStr t => String.eqb t s | _ => false end.

Fixpoint string_of_uint (u : Decimal.uint) : string :=
  match u with
  | Decimal.Nil => ""
  | Decimal.D0 u => String "0" (string_of_uint u)
  | Decimal.D1 u => String "1" (string_of_uint u)
  | Decimal.D2 u => String "2" (string_of_uint u)
  | Decimal.D3 u => String "3" (string_of_uint u)
  | Decimal.D4 u => String "4" (string_of_uint u)
  | Decimal.D5 u => String "5" (string_of_uint u)
  | Decimal.D6 u => String "6" (string_of_uint u)
  | Decimal.D7 u => String "7" (string_of_uint u)
  | Decimal.D8 u => String "8" (string_of_uint u)
  | Decimal.D9 u => String "9" (string_of_uint u)
  end.

(** [str(n)] for an integer. *)
Definition string_of_Z (z : Z) : string :=
  match Z.to_int z with
  | Decimal.Pos u => string_of_uint u
  | Decimal.Neg u => String "-" (string_of_uint u)
  end.

(** [str(v)] *)
Definition py_str (v : pyval) : string :=
  match v with
  | VStr s => s
  | VInt z => string_of_Z z
  | VBool true => "True"
  | VBool false => "False"
  | VNone => "None"
  end.

(** A dict, in insertion order; its keys are distinct. *)
Definition dict := list (string * pyval).

Fixpoint dict_get (d : dict) (k : string) : option pyval :=
  match d with
  | [] => None
  | (k', v) :: d' => if String.eqb k k' then Some v else dict_get d' k
  end.

(** [d[k] = v]: an existing key keeps its position, a new key goes last. *)
Fixpoint dict_set (d : dict) (k : string) (v : pyval) : dict :=
  match d with
  | [] => [(k, v)]
  | (k', v') :: d' => if String.eqb k k' then (k, v) :: d' else (k', v') :: dict_set d' k v
  end.

(** The dict built by inserting [items] in order. *)
Definition dict_of (items : list (string * pyval)) : dict :=
  fold_left (fun d kv => dict_set d (fst kv) (snd kv)) items [].

(** [d.get(k, dflt)] ([d.get(k)] is [get_default d k VNone]). *)
Definition get_default (d : dict) (k : string) (dflt : pyval) : pyval :=
  match dict_get d k with Some v => v | None => dflt end.

(** [d.get(k) or dflt] *)
Definition get_or (d : dict) (k : string) (dflt : pyval) : pyval :=
  let v := get_default d k VNone in if truthy v then v else dflt.

(** The process environment after the [.env] files are loaded. *)
Definition environ := string -> option string.

(** [os.getenv(k, dflt)] *)
Definition getenv (env : environ) (k dflt : string) : string :=
  match env k with Some v => v | None => dflt end.

Definition DEFAULT_TTS_PROVIDER (env : environ) : string := getenv env "TTS_PROVIDER" "gcloud".
Definition DEFAULT_TTS_MODEL (env : environ) : string :=
  getenv env "GEMINI_TTS_MODEL_NAME" "gemini-2.5-flash-native-audio-preview-12-2025".
Definition DEFAULT_TTS_MODEL_FULL (env : environ) : string :=
  let m := DEFAULT_TTS_MODEL env in
  if startswith m "models/" then m else ("models/" ++ m)%string.
Definition DEFAULT_AUDIO_MIME (env : environ) : string := getenv env "TTS_AUDIO_MIME" "audio/wav".
Definition DEFAULT_GCLOUD_VOICE_NAME (env : environ) : string :=
  getenv env "GCLOUD_TTS_VOICE_NAME" "Leda".
Definition DEFAULT_GCLOUD_LANGUAGE_CODE (env : environ) : string :=
  getenv env "GCLOUD_TTS_LANGUAGE_CODE" "en-us".
Definition DEFAULT_GCLOUD_MODEL_NAME (env : environ) : string :=
  getenv env "GCLOUD_TTS_MODEL_NAME" "gemini-2.5-flash-lite-preview-tts".
Definition DEFAULT_GCLOUD_TTS_PROMPT (env : environ) : string :=
  getenv env "GCLOUD_TTS_PROMPT" "Read aloud in a warm, welcoming tone.".

(* ------------------------------------------------------------------ *)
(** ** Exceptions, backend requests, events and the world *)

(** The exceptions that can reach [generate_tts]; all of them derive from
    [Exception]. *)
Inductive exc :=
| ValueError (msg : string)
| RuntimeError (msg : string)
| StructError
| OtherError (msg : string).

Definition is_runtime_error (e : exc) : bool :=
  match e with RuntimeError _ => true | _ => false end.

Inductive result (A : Type) :=
| Ok (a : A)
| Err (e : exc).
Arguments Ok {A} a.
Arguments Err {A} e.

(** What is sent to the Live API session. *)
Record live_request := mk_live_request {
  live_model : string; live_voice : pyval; live_text : string }.

(** What is sent to [generate_content_stream]. *)
Record gemini_request := mk_gemini_request {
  gem_model : string; gem_voice : pyval; gem_text : string }.

(** What is sent to [synthesize_speech]; [gc_speaking_rate = None] is the
    literal default [1.0]. *)
Record gcloud_request := mk_gcloud_request {
  gc_text : string; gc_language_code : pyval; gc_voice_name : pyval;
  gc_pitch : pyval; gc_speaking_rate : option pyval }.

(** Observable actions, in order. *)
Inductive event :=
| EvLiveClient                           (* the cached Live client is created *)
| EvLiveSession (req : live_request)     (* a Live API session is opened *)
| EvGeminiStream (req : gemini_request)  (* a generate_content_stream call *)
| EvGcloudClient                         (* a TextToSpeechClient is created *)
| EvGcloudSynthesize (req : gcloud_request)
| EvWarning (e : exc)                    (* a provider failure caught and logged *)
| EvGet (k : string)                     (* r.get *)
| EvSet (k v : string) (ttl : option Z). (* r.setex (Some ttl) or r.set (None) *)

Definition is_provider_call (ev : event) : bool :=
  match ev with
  | EvLiveSession _ | EvGeminiStream _ | EvGcloudSynthesize _ => true
  | _ => false
  end.

(** A Redis entry: the value and its expiry time, if any. *)
Definition entry := (string * option Z)%type.

Record world := mk_world {
  store : string -> option entry;
  clock : Z;
  live_client : bool;       (* [_gemini_live_client is not None] *)
  trace : list event }.

Definition entry_alive (e : entry) (now : Z) : bool :=
  match snd e with None => true | Some deadline => now <? deadline end.

(** The Python event loop seen by [generate_tts]: [NoLoop] is
    [asyncio.get_event_loop()] raising [RuntimeError] or returning a
    closed loop (both end in a single [asyncio.run]). *)
Inductive loop_state := NoLoop | LoopIdle | LoopRunning.

Record runtime := mk_runtime {
  env : environ;
  gemini_available : bool;   (* GEMINI_TTS_AVAILABLE *)
  gcloud_available : bool;   (* GCLOUD_TTS_AVAILABLE *)
  event_loop : loop_state }.

(** The answers of the external services; the [nat] is the number of
    earlier calls of the same kind. A Live session answers with the
    concatenated [response.data] bytes; a Gemini stream with the
    concatenated non-empty inline data and the first MIME type seen. *)
Record backends := mk_backends {
  live_session : nat -> live_request -> result (list byte);
  gemini_stream : nat -> gemini_request -> result (list byte * option string);
  gcloud_client : nat -> result unit;
  gcloud_synthesize : nat -> gcloud_request -> result (list byte) }.

(* ------------------------------------------------------------------ *)
(** ** A state and exception monad *)

Definition M (A : Type) := world -> result A * world.

Definition ret {A} (a : A) : M A := fun w => (Ok a, w).
Definition raise {A} (e : exc) : M A := fun w => (Err e, w).
Definition bind {A B} (m : M A) (k : A -> M B) : M B :=
  fun w => match m w with
           | (Ok a, w') => k a w'
           | (Err e, w') => (Err e, w')
           end.
(** [try: m except Exception as e: h(e)] *)
Definition catch {A} (m : M A) (h : exc -> M A) : M A :=
  fun w => match m w with
           | (Err e, w') => h e w'
           | r => r
           end.
Definition lift {A} (r : result A) : M A := fun w => (r, w).
Definition get_world : M world := fun w => (Ok w, w).

Notation "x <- m ;; k" := (bind m (fun x => k))
  (at level 61, m at next level, right associativity).
Notation "m ;;; k" := (bind m (fun _ => k))
  (at level 61, right associativity).

Definition emit (ev : event) : M unit :=
  fun w => (Ok tt, mk_world (store w) (clock w) (live_client w) (trace w ++ [ev])).

Definition count_events (p : event -> bool) : M nat :=
  fun w => (Ok (List.length (filter p (trace w))), w).

(* ------------------------------------------------------------------ *)
(** ** The empty WAV of [generate_tts] *)

(** The literal returned when no provider produced audio. *)
Definition empty_wav : list byte :=
  bytes_of "RIFF" ++ [Byte.x24; Byte.x00; Byte.x00; Byte.x00]
  ++ bytes_of "WAVE" ++ bytes_of "fmt "
  ++ [Byte.x10; Byte.x00; Byte.x00; Byte.x00]
  ++ [Byte.x01; Byte.x00]
  ++ [Byte.x01; Byte.x00]
  ++ [Byte.x44; Byte.xac; Byte.x00; Byte.x00]
  ++ [Byte.x88; Byte.x58; Byte.x01; Byte.x00]
  ++ [Byte.x02; Byte.x00]
  ++ [Byte.x10; Byte.x00]
  ++ bytes_of "data" ++ [Byte.x00; Byte.x00; Byte.x00; Byte.x00].

(* ------------------------------------------------------------------ *)
(** ** Base64 ([base64.b64encode(...).decode("utf-8")]) *)

Definition b64_alphabet : string :=
  "ABCDEFGHIJKLMNOPQRSTUVWXYZabcdefghijklmnopqrstuvwxyz0123456789+/".

Definition b64_char (n : Z) : ascii :=
  match String.get (Z.to_nat n) b64_alphabet with Some c => c | None => "="%char end.

Fixpoint b64encode (bs : list byte) : string :=
  match bs with
  | a :: b :: c :: rest =>
      let n := Z_of_byte a * 65536 + Z_of_byte b * 256 + Z_of_byte c in
      String (b64_char (n / 262144)) (String (b64_char (n / 4096 mod 64))
        (String (b64_char (n / 64 mod 64)) (String (b64_char (n mod 64)) (b64encode rest))))
  | [a; b] =>
      let n := Z_of_byte a * 65536 + Z_of_byte b * 256 in
      String (b64_char (n / 262144)) (String (b64_char (n / 4096 mod 64))
        (String (b64_char (n / 64 mod 64)) "="))
  | [a] =>
      let n := Z_of_byte a * 65536 in
      String (b64_char (n / 262144)) (String (b64_char (n / 4096 mod 64)) "==")
  | [] => ""
  end.

Definition url_of (mime_type b64 : string) : string :=
  ("data:" ++ mime_type ++ ";base64," ++ b64)%string.

Definition newline : string := String (ascii_of_nat 10) "".

(* ------------------------------------------------------------------ *)
(** ** The service *)

Section Service.

Variable rt : runtime.
Variable bk : backends.

(** [_get_gemini_api_key] *)
Definition get_gemini_api_key : M string :=
  match env rt "GEMINI_API_KEY" with
  | Some k => if String.eqb k "" then raise (ValueError "GEMINI_API_KEY environment variable is not set")
              else ret k
  | None => raise (ValueError "GEMINI_API_KEY environment variable is not set")
  end.

(** [_get_gemini_live_client]: created once, then reused. *)
Definition get_gemini_live_client : M unit :=
  w <- get_world ;;
  if live_client w then ret tt
  else get_gemini_api_key ;;;
       (fun w' => (Ok tt, mk_world (store w') (clock w') true (trace w' ++ [EvLiveClient]))).

(** The end of [_generate_tts_async] once the session has answered. *)
Definition live_finish (r : result (list byte)) : result (list byte) :=
  match r with
  | Err e => Err e
  | Ok [] => Err (RuntimeError "No audio data received from Live API")
  | Ok pcm =>
      match pcm_to_wav pcm 24000 1 2 with
      | Some wav => Ok wav
      | None => Err StructError
      end
  end.

(** [_generate_tts_async] *)
Definition generate_tts_async (text : string) (voice_config : dict) : M (list byte) :=
  let text_stripped := py_strip text in
  if String.eqb text_stripped "" then raise (ValueError "text must be a non-empty string")
  else
    let model :=
      let m := get_default voice_config "model" VNone in
      if truthy m then
        let m := py_str m in if startswith m "models/" then m else ("models/" ++ m)%string
      else DEFAULT_TTS_MODEL_FULL (env rt) in
    let voice_name := get_default voice_config "voiceName" (VStr "Zephyr") in
    get_gemini_live_client ;;;
    let req := mk_live_request model voice_name text_stripped in
    i <- count_events (fun ev => match ev with EvLiveSession _ => true | _ => false end) ;;
    emit (EvLiveSession req) ;;;
    lift (live_finish (live_session bk i req)).

(** The end of [_generate_tts_gcloud_v1beta1] once the stream is over;
    every failure is re-raised as a [RuntimeError]. *)
Definition gemini_finish (r : result (list byte * option string)) : result (list byte) :=
  let fail := Err (RuntimeError "Failed to generate audio via Gemini API") in
  match r with
  | Err _ => fail
  | Ok ([], _) => fail
  | Ok (audio_data, audio_mime_type) =>
      match audio_mime_type with
      | Some m =>
          if negb (String.eqb m "") && negb (String.eqb m "audio/wav") then
            match convert_audio_to_wav audio_data m with
            | Some wav => Ok wav
            | None => fail
            end
          else Ok audio_data
      | None => Ok audio_data
      end
  end.

(** [_generate_tts_gcloud_v1beta1]; the language code and model name
    arguments are unused by the source. *)
Definition generate_tts_gcloud_v1beta1 (text : string) (voice_name : pyval)
    (prompt : pyval) : M (list byte) :=
  if negb (gemini_available rt) then
    raise (RuntimeError "google-genai library not available. Install with: pip install google-genai")
  else
    get_gemini_api_key ;;;
    let model := "gemini-2.5-flash-preview-tts" in
    let full_text := (py_str prompt ++ newline ++ py_strip text)%string in
    let req := mk_gemini_request model voice_name full_text in
    i <- count_events (fun ev => match ev with EvGeminiStream _ => true | _ => false end) ;;
    emit (EvGeminiStream req) ;;;
    lift (gemini_finish (gemini_stream bk i req)).

(** The request [_generate_tts_gcloud] sends. *)
Definition gcloud_request_of (text : string) (voice_config : dict) : gcloud_request :=
  let style := get_default voice_config "style" VNone in
  let voice_name :=
    if is_str style "game_show_host" then VStr "en-US-Studio-O"
    else get_or voice_config "voiceName" (VStr (DEFAULT_GCLOUD_VOICE_NAME (env rt))) in
  let language_code :=
    get_or voice_config "languageCode" (VStr (DEFAULT_GCLOUD_LANGUAGE_CODE (env rt))) in
  let voice_name :=
    if is_str voice_name "Leda" || is_str voice_name "Aoede" then VStr "en-US-Studio-O"
    else voice_name in
  mk_gcloud_request (py_strip text) language_code voice_name
    (get_default voice_config "pitch" (VInt 0)) (dict_get voice_config "speakingRate").

(** [_generate_tts_gcloud] *)
Definition generate_tts_gcloud (text : string) (voice_config : dict) : M (list byte) :=
  if negb (gcloud_available rt) then raise (RuntimeError "google-cloud-texttospeech not available")
  else
    i <- count_events (fun ev => match ev with EvGcloudClient => true | _ => false end) ;;
    emit EvGcloudClient ;;;
    lift (gcloud_client bk i) ;;;
    let req := gcloud_request_of text voice_config in
    j <- count_events (fun ev => match ev with EvGcloudSynthesize _ => true | _ => false end) ;;
    emit (EvGcloudSynthesize req) ;;;
    lift (gcloud_synthesize bk j req).

(** A provider stage of [generate_tts]: [Some audio] is a [return],
    [None] falls through to the next stage. *)
Definition caught (m : M (option (list byte))) : M (option (list byte)) :=
  catch m (fun e => emit (EvWarning e) ;;; ret None).

Definition returned (m : M (list byte)) : M (option (list byte)) :=
  b <- m ;; ret (Some b).

(** Primary: the Live API, driven through the event loop. *)
Definition stage_live (text : string) (voice_config : dict) : M (option (list byte)) :=
  caught
    match event_loop rt with
    | LoopRunning =>
        (* executor.submit(asyncio.run, ...).result(); on RuntimeError the
           inner handler calls asyncio.run inside the running loop *)
        catch (returned (generate_tts_async text voice_config))
          (fun e => if is_runtime_error e
                    then raise (RuntimeError "asyncio.run() cannot be called from a running event loop")
                    else raise e)
    | LoopIdle =>
        (* loop.run_until_complete(...); on RuntimeError, asyncio.run(...) *)
        catch (returned (generate_tts_async text voice_config))
          (fun e => if is_runtime_error e
                    then returned (generate_tts_async text voice_config)
                    else raise e)
    | NoLoop => returned (generate_tts_async text voice_config)
    end.

(** Fallback 1: the Gemini API, for the Leda voice. *)
Definition stage_gemini (text : string) (voice_config : dict) (provider : pyval)
  : M (option (list byte)) :=
  caught
    (let style := get_default voice_config "style" VNone in
     let voice_name := get_or voice_config "voiceName" (VStr (DEFAULT_GCLOUD_VOICE_NAME (env rt))) in
     if is_str style "game_show_host" || is_str voice_name "Leda" || is_str provider "gemini" then
       returned (generate_tts_gcloud_v1beta1 text
                   (if is_str voice_name "Leda" then voice_name else VStr "Leda")
                   (get_or voice_config "prompt" (VStr (DEFAULT_GCLOUD_TTS_PROMPT (env rt)))))
     else ret None).

(** Fallback 2: Google Cloud TTS. *)
Definition stage_gcloud (text : string) (voice_config : dict) : M (option (list byte)) :=
  caught (returned (generate_tts_gcloud text voice_config)).

(** [generate_tts] *)
Definition generate_tts (text : string) (voice_config : dict) : M (list byte) :=
  if String.eqb (py_strip text) "" then raise (ValueError "text must be a non-empty string")
  else
    let provider := get_or voice_config "provider" (VStr (DEFAULT_TTS_PROVIDER (env rt))) in
    r1 <- (if gemini_available rt then stage_live text voice_config else ret None) ;;
    match r1 with
    | Some audio => ret audio
    | None =>
      r2 <- (if gemini_available rt then stage_gemini text voice_config provider else ret None) ;;
      match r2 with
      | Some audio => ret audio
      | None =>
        r3 <- (if is_str provider "gcloud" && gcloud_available rt
               then stage_gcloud text voice_config else ret None) ;;
        match r3 with
        | Some audio => ret audio
        | None => ret empty_wav
        end
      end
    end.

(** [r.get(key)] *)
Definition redis_get (key : string) : M (option string) :=
  fun w =>
    let v := match store w key with
             | Some e => if entry_alive e (clock w) then Some (fst e) else None
             | None => None
             end in
    (Ok v, mk_world (store w) (clock w) (live_client w) (trace w ++ [EvGet key])).

(** [r.setex(key, ttl, value)] ([Some ttl]) and [r.set(key, value)] ([None]). *)
Definition redis_set (key value : string) (ttl : option Z) : M unit :=
  fun w =>
    let e := (value, match ttl with Some t => Some (clock w + t) | None => None end) in
    (Ok tt, mk_world (fun k => if String.eqb k key then Some e else store w k)
              (clock w) (live_client w) (trace w ++ [EvSet key value ttl])).

Definition mime_of (voice_config : dict) : string :=
  py_str (get_or voice_config "mimeType" (VStr (DEFAULT_AUDIO_MIME (env rt)))).

(** [get_audio_url]; a [voice_config] of [None] is the empty dict. *)
Definition get_audio_url (text cache_key : string) (voice_config : dict) (ttl_seconds : Z)
  : M string :=
  if String.eqb cache_key "" then raise (ValueError "cache_key is required")
  else
    let mime_type := mime_of voice_config in
    let miss :=
      audio_bytes <- generate_tts text voice_config ;;
      let b64 := b64encode audio_bytes in
      (if 0 <? ttl_seconds then redis_set cache_key b64 (Some ttl_seconds)
       else redis_set cache_key b64 None) ;;;
      ret (url_of mime_type b64) in
    cached_b64 <- redis_get cache_key ;;
    match cached_b64 with
    | Some v => if negb (String.eqb v "") then ret (url_of mime_type v) else miss
    | None => miss
    end.

End Service.

(* ------------------------------------------------------------------ *)
(** ** Failure of the backends, and sample configurations *)

Definition is_err {A} (r : result A) : bool :=
  match r with Err _ => true | Ok _ => false end.

(** Every answer of every backend makes its adapter fail: the Live
    session errors, streams no audio or more than the WAV header can
    describe; the Gemini stream errors, streams no audio or cannot be
    re-framed; Google Cloud TTS errors. *)
Definition all_backends_fail (bk : backends) : Prop :=
  (forall i req, is_err (live_finish (live_session bk i req)) = true)
  /\ (forall i req, is_err (gemini_finish (gemini_stream bk i req)) = true)
  /\ (forall i req, is_err (gcloud_synthesize bk i req) = true).

(** No environment variable set. *)
Definition env0 : environ := fun _ => None.

(** Empty store at time 0, no Live client yet. *)
Definition w0 : world := mk_world (fun _ => None) 0 false [].

Definition with_clock (w : world) (t : Z) : world :=
  mk_world (store w) t (live_client w) (trace w).

Definition rt_both : runtime := mk_runtime env0 true true NoLoop.

Definition bk_down : backends :=
  mk_backends (fun _ _ => Err (OtherError "connection refused"))
              (fun _ _ => Err (OtherError "connection refused"))
              (fun _ => Ok tt)
              (fun _ _ => Err (OtherError "quota exceeded")).

(** A store that only runs Google Cloud TTS. *)
Definition rt_gc : runtime := mk_runtime env0 false true NoLoop.

(** Google Cloud TTS answers with one byte of audio. *)
Definition bk_one : backends :=
  mk_backends (fun _ _ => Err (OtherError "connection refused"))
              (fun _ _ => Err (OtherError "connection refused"))
              (fun _ => Ok tt)
              (fun _ _ => Ok [Byte.x01]).

(** Both providers importable, with an API key, and no event loop. *)
Definition rt_key : runtime :=
  mk_runtime (fun k => if String.eqb k "GEMINI_API_KEY" then Some "key" else None)
             true true NoLoop.

(** The Live API answers with one 16-bit sample. *)
Definition bk_live : backends :=
  mk_backends (fun _ _ => Ok [Byte.x01; Byte.x00])
              (fun _ _ => Err (OtherError "connection refused"))
              (fun _ => Ok tt)
              (fun _ _ => Err (OtherError "quota exceeded")).

(** The world once [r.get(key)] has been logged. *)
Definition log_get (w : world) (key : string) : world :=
  mk_world (store w) (clock w) (live_client w) (trace w ++ [EvGet key]).

(** [r.get(key)] is falsy: no live entry, or an empty one. *)
Definition cache_miss (w : world) (key : string) : bool :=
  match store w key with
  | Some e => negb (entry_alive e (clock w)) || String.eqb (fst e) ""
  | None => true
  end.

(* ------------------------------------------------------------------ *)
(** ** The cache key: [_stable_cache_key] *)

(** [s.encode("utf-8")] for a string of code points below 256. *)
Fixpoint utf8_encode (s : string) : list byte :=
  match s with
  | EmptyString => []
  | String c s' =>
      let n := code c in
      (if n <? 128 then [byte_of_Z n]
       else [byte_of_Z (Z.lor 192 (Z.shiftr n 6)); byte_of_Z (Z.lor 128 (Z.land n 63))])
      ++ utf8_encode s'
  end.

Definition backslash : ascii := ascii_of_nat 92.
Definition single_quote : ascii := ascii_of_nat 39.
Definition double_quote : ascii := ascii_of_nat 34.

Fixpoint has_char (c : ascii) (s : string) : bool :=
  match s with
  | EmptyString => false
  | String c' s' => Ascii.eqb c c' || has_char c s'
  end.

Definition hex_digit (n : Z) : ascii :=
  match String.get (Z.to_nat n) "0123456789abcdef" with Some c => c | None => "0"%char end.

(** The quote [repr] of a str uses: double quotes only for a string
    with a single quote and no double quote. *)
Definition repr_quote (s : string) : ascii :=
  if has_char single_quote s && negb (has_char double_quote s) then double_quote
  else single_quote.

(** One character of [repr] of a str quoted with [q]: the characters
    that [str.isprintable] rejects are written [\xhh]. *)
Definition repr_char (q c : ascii) : string :=
  let n := code c in
  if Ascii.eqb c q || Ascii.eqb c backslash then String backslash (String c EmptyString)
  else if n =? 9 then String backslash "t"
  else if n =? 10 then String backslash "n"
  else if n =? 13 then String backslash "r"
  else if (n <? 32) || (n =? 127) || ((128 <=? n) && (n <=? 160)) || (n =? 173) then
    String backslash (String "x" (String (hex_digit (n / 16)) (String (hex_digit (n mod 16)) EmptyString)))
  else String c EmptyString.

Fixpoint repr_body (q : ascii) (s : string) : string :=
  match s with
  | EmptyString => EmptyString
  | String c s' => (repr_char q c ++ repr_body q s')%string
  end.

(** [repr(s)] for a str. *)
Definition py_repr_str (s : string) : string :=
  let q := repr_quote s in String q (repr_body q s ++ String q EmptyString)%string.

(** [repr(v)] *)
Definition py_repr (v : pyval) : string :=
  match v with VStr s => py_repr_str s | _ => py_str v end.

Fixpoint join (sep : string) (l : list string) : string :=
  match l with
  | [] => EmptyString
  | [x] => x
  | x :: l' => (x ++ sep ++ join sep l')%string
  end.

(** [str(items)] for a list of (key, value) pairs. *)
Definition repr_items (items : list (string * pyval)) : string :=
  ("[" ++ join ", " (map (fun kv => "(" ++ py_repr_str (fst kv) ++ ", " ++ py_repr (snd kv) ++ ")")
                        items) ++ "]")%string.

(** [sorted(d.items())]: the keys of a dict are distinct, so the pairs
    are ordered by their keys, compared code point by code point. *)
Fixpoint insert_item (x : string * pyval) (l : list (string * pyval)) : list (string * pyval) :=
  match l with
  | [] => [x]
  | y :: l' => if String.ltb (fst x) (fst y) then x :: l else y :: insert_item x l'
  end.

Definition sort_items (l : list (string * pyval)) : list (string * pyval) :=
  fold_right insert_item [] l.

Section CacheKey.

(** [hashlib.sha256(data).hexdigest()] *)
Variable sha256_hexdigest : list byte -> string.

(** [_stable_cache_key]: the three [h.update] calls hash the
    concatenation of their arguments. *)
Definition stable_cache_key (prefix text : string) (voice_config : dict) : string :=
  let voice_part := utf8_encode (repr_items (sort_items voice_config)) in
  let data := utf8_encode text ++ [Byte.x7c] ++ voice_part in
  (prefix ++ ":" ++ sha256_hexdigest data)%string.

End CacheKey.

(* ------------------------------------------------------------------ *)
(** ** What a computation does to the world *)

(** [m] relates every world to the world it leaves, whatever its result. *)
Definition along (R : world -> world -> Prop) {A} (m : M A) : Prop :=
  forall w, R w (snd (m w)).

(** Every value [m] returns satisfies [Q]. *)
Definition results {A} (Q : A -> Prop) (m : M A) : Prop :=
  forall w a, fst (m w) = Ok a -> Q a.

(** Every exception [m] raises satisfies [Q]. *)
Definition raises {A} (Q : exc -> Prop) (m : M A) : Prop :=
  forall w e, fst (m w) = Err e -> Q e.

(** The store and the clock are untouched and every new event satisfies [P]. *)
Definition adds_only (P : event -> Prop) (w w' : world) : Prop :=
  store w' = store w /\ clock w' = clock w
  /\ exists suf, trace w' = trace w ++ suf /\ Forall P suf.

Definition is_live_client (ev : event) : bool :=
  match ev with EvLiveClient => true | _ => false end.

Definition is_live_session (ev : event) : bool :=
  match ev with EvLiveSession _ => true | _ => false end.

Definition is_gemini_stream (ev : event) : bool :=
  match ev with EvGeminiStream _ => true | _ => false end.

Definition is_gcloud_event (ev : event) : bool :=
  match ev with EvGcloudClient | EvGcloudSynthesize _ => true | _ => false end.

Definition is_gemini_event (ev : event) : bool :=
  match ev with EvLiveClient | EvLiveSession _ | EvGeminiStream _ => true | _ => false end.

Definition is_cache_event (ev : event) : bool :=
  match ev with EvGet _ | EvSet _ _ _ => true | _ => false end.

(** [_gemini_live_client] is set exactly when the trace shows its one
    creation. *)
Definition client_inv (w : world) : Prop :=
  List.length (filter is_live_client (trace w)) = (if live_client w then 1 else 0)%nat.

Definition keeps_client_inv (w w' : world) : Prop := client_inv w -> client_inv w'.

(** Only the entry of [key] may change, and the clock does not. *)
Definition only_key (key : string) (w w' : world) : Prop :=
  clock w' = clock w /\ forall k, k <> key -> store w' k = store w k.

(** At most [n] Live sessions are opened. *)
Definition live_sessions_at_most {A} (n : nat) (m : M A) : Prop :=
  forall w, exists suf, trace (snd (m w)) = trace w ++ suf
                        /\ (List.length (filter is_live_session suf) <= n)%nat.

(** The provider from [voice_config] or [TTS_PROVIDER]. *)
Definition provider_of (rt : runtime) (voice_config : dict) : pyval :=
  get_or voice_config "provider" (VStr (DEFAULT_TTS_PROVIDER (env rt))).

(** The request [_generate_tts_async] sends to the Live API. *)
Definition live_request_of (rt : runtime) (text : string) (voice_config : dict) : live_request :=
  let model :=
    let m := get_default voice_config "model" VNone in
    if truthy m then
      let m := py_str m in if startswith m "models/" then m else ("models/" ++ m)%string
    else DEFAULT_TTS_MODEL_FULL (env rt) in
  mk_live_request model (get_default voice_config "voiceName" (VStr "Zephyr")) (py_strip text).

(** The events [generate_tts rt bk text voice_config] may log: Gemini
    requests only when Gemini is importable, the Live request of
    [live_request_of], Gemini stream requests for the voice Leda, and
    Google Cloud requests only for the provider gcloud; never a cache
    access. *)
Definition tts_event_ok (rt : runtime) (text : string) (voice_config : dict) (ev : event) : Prop :=
  match ev with
  | EvLiveClient => gemini_available rt = true
  | EvLiveSession req => gemini_available rt = true /\ req = live_request_of rt text voice_config
  | EvGeminiStream req =>
      gemini_available rt = true
      /\ req = mk_gemini_request "gemini-2.5-flash-preview-tts" (VStr "Leda")
                 (py_str (get_or voice_config "prompt" (VStr (DEFAULT_GCLOUD_TTS_PROMPT (env rt))))
                  ++ newline ++ py_strip text)%string
  | EvGcloudClient => gcloud_available rt = true /\ is_str (provider_of rt voice_config) "gcloud" = true
  | EvGcloudSynthesize req =>
      gcloud_available rt = true /\ is_str (provider_of rt voice_config) "gcloud" = true
      /\ req = gcloud_request_of rt text voice_config
  | EvWarning _ => True
  | EvGet _ | EvSet _ _ _ => False
  end.

(* ------------------------------------------------------------------ *)
(** ** [get_redis_client] (storage/client.py) *)

(** The client [get_redis_client] builds: [redis.from_url(url)] or
    [Redis(host, port, password, db)], both with [decode_responses=True]. *)
Inductive redis_conn :=
| FromUrl (url : string)
| Direct (host : string) (port : Z) (password : option string) (db : Z).

(** The answer to [ping()]: a [ConnectionError] is turned into a
    [ValueError], any other exception propagates. *)
Inductive ping_result := Pong | PingConnError (msg : string) | PingOtherError (e : exc).

(** The redis library: the checks of [from_url], and the answers of the
    server to the [n]-th [ping()]. *)
Record redis_lib := mk_redis_lib {
  from_url : string -> result unit;
  ping : nat -> redis_conn -> ping_result }.

(** The module state: [_redis_client] and the number of pings so far. *)
Record redis_module := mk_redis_module { redis_client : option redis_conn; pings : nat }.

(** [int(os.getenv(k, dflt))] *)
Definition int_env (env : environ) (k dflt : string) : result Z :=
  let s := getenv env k dflt in
  match py_int s with
  | Some z => Ok z
  | None => Err (ValueError ("invalid literal for int() with base 10: " ++ py_repr_str s)%string)
  end.

(** The client [get_redis_client] constructs, before the [ping()]. *)
Definition make_redis_client (env : environ) (lib : redis_lib) : result redis_conn :=
  let redis_url := env "REDIS_URL" in
  let redis_host := getenv env "REDIS_HOST" "localhost" in
  match int_env env "REDIS_PORT" "6379" with
  | Err e => Err e
  | Ok redis_port =>
      let redis_password := env "REDIS_PASSWORD" in
      match int_env env "REDIS_DB" "0" with
      | Err e => Err e
      | Ok redis_db =>
          let direct := Direct redis_host redis_port redis_password redis_db in
          match redis_url with
          | Some u =>
              if String.eqb u "" then Ok direct
              else match from_url lib u with Ok _ => Ok (FromUrl u) | Err e => Err e end
          | None => Ok direct
          end
      end
  end.

(** [get_redis_client]: [_redis_client] is assigned before the [ping()]. *)
Definition get_redis_client (env : environ) (lib : redis_lib) (m : redis_module)
  : result redis_conn * redis_module :=
  match redis_client m with
  | Some c => (Ok c, m)
  | None =>
      match make_redis_client env lib with
      | Err e => (Err e, m)
      | Ok c =>
          let m' := mk_redis_module (Some c) (S (pings m)) in
          match ping lib (pings m) c with
          | Pong => (Ok c, m')
          | PingConnError msg => (Err (ValueError ("Failed to connect to Redis: " ++ msg)%string), m')
          | PingOtherError e => (Err e, m')
          end
      end
  end.

(** [ping()] ran exactly once when a client is cached, never otherwise. *)
Definition redis_inv (m : redis_module) : Prop :=
  match redis_client m with Some _ => pings m = 1%nat | None => pings m = 0%nat end.

(** A server that answers every ping, and one that refuses connections. *)
Definition lib_up : redis_lib := mk_redis_lib (fun _ => Ok tt) (fun _ _ => Pong).
Definition lib_down : redis_lib :=
  mk_redis_lib (fun _ => Ok tt) (fun _ _ => PingConnError "Connection refused").

(* ------------------------------------------------------------------ *)
(** ** Lemmas on the byte encoding *)

Lemma Z_of_byte_of_Z z : Z_of_byte (byte_of_Z z) = z mod 256.
Proof.
  unfold Z_of_byte, byte_of_Z.
  assert (Hr : 0 <= z mod 256 < 256) by (apply Z.mod_pos_bound; lia).
  pose proof (Byte.to_of_N_option_map (Z.to_N (z mod 256))) as H.
  destruct (Byte.of_N (Z.to_N (z mod 256))) as [b|] eqn:E; simpl in H.
  - destruct (N.leb (Z.to_N (z mod 256)) 255); inversion H; subst. lia.
  - rewrite Byte.of_N_None_iff in E. lia.
Qed.

Lemma le_bytes_length w x : List.length (le_bytes w x) = w.
Proof. revert x; induction w; intros; simpl; [reflexivity | now rewrite IHw]. Qed.

Lemma read_le_le_bytes w x :
  0 <= x < 2 ^ (8 * Z.of_nat w) -> read_le (le_bytes w x) = x.
Proof.
  revert x; induction w as [|w IH]; intros x Hx; cbn [le_bytes read_le].
  - simpl in Hx; lia.
  - rewrite Z_of_byte_of_Z, Zmod_mod, IH.
    + pose proof (Z.div_mod x 256 ltac:(lia)); lia.
    + assert (E : 2 ^ (8 * Z.of_nat (S w)) = 256 * 2 ^ (8 * Z.of_nat w)).
      { rewrite Nat2Z.inj_succ, Z.mul_succ_r, Z.pow_add_r by lia. lia. }
      rewrite E in Hx. split.
      * apply Z.div_pos; lia.
      * apply Z.div_lt_upper_bound; lia.
Qed.

Lemma field_at_app pre x post :
  0 <= x < 2 ^ 32 ->
  field_at (List.length pre) 4 (pre ++ le_bytes 4 x ++ post) = x.
Proof.
  intros Hx. unfold field_at.
  rewrite skipn_app, skipn_all, Nat.sub_diag, skipn_O, app_nil_l.
  rewrite firstn_app, le_bytes_length, Nat.sub_diag, firstn_O, app_nil_r.
  rewrite firstn_all2 by (rewrite le_bytes_length; lia).
  apply read_le_le_bytes. simpl. lia.
Qed.

(** The canonical 44-byte header followed by the payload, with every
    integer field little-endian. *)
Definition wav_bytes (riff fmt_size audio_format channels rate byte_rate block_align bits
                      data_size : Z) (payload : list byte) : list byte :=
  bytes_of "RIFF" ++ le_bytes 4 riff ++ bytes_of "WAVE" ++ bytes_of "fmt "
  ++ le_bytes 4 fmt_size ++ le_bytes 2 audio_format ++ le_bytes 2 channels
  ++ le_bytes 4 rate ++ le_bytes 4 byte_rate ++ le_bytes 2 block_align
  ++ le_bytes 2 bits ++ bytes_of "data" ++ le_bytes 4 data_size ++ payload.

Definition in_u32 (x : Z) : Prop := 0 <= x < 2 ^ 32.
Definition in_u16 (x : Z) : Prop := 0 <= x < 2 ^ 16.

Ltac read_field x w :=
  let H := fresh in
  assert (H : read_le (le_bytes w x) = x) by (apply read_le_le_bytes; simpl; assumption);
  cbn [le_bytes] in H; rewrite H; clear H.

Lemma read_wav_bytes riff fs af ch rate br ba bits ds payload :
  in_u32 riff -> in_u32 fs -> in_u16 af -> in_u16 ch -> in_u32 rate -> in_u32 br ->
  in_u16 ba -> in_u16 bits -> in_u32 ds ->
  read_wav_header (wav_bytes riff fs af ch rate br ba bits ds payload)
  = Some (mk_wav_header riff fs af ch rate br ba bits ds).
Proof.
  unfold in_u32, in_u16; intros.
  unfold read_wav_header, wav_bytes, tag_at, field_at.
  cbn [le_bytes firstn skipn app bytes_of list_byte_of_string list_ascii_of_string map].
  read_field riff 4%nat. read_field fs 4%nat. read_field af 2%nat. read_field ch 2%nat.
  read_field rate 4%nat. read_field br 4%nat. read_field ba 2%nat. read_field bits 2%nat.
  read_field ds 4%nat.
  reflexivity.
Qed.

Lemma wav_bytes_length riff fs af ch rate br ba bits ds payload :
  List.length (wav_bytes riff fs af ch rate br ba bits ds payload)
  = (44 + List.length payload)%nat.
Proof.
  unfold wav_bytes. rewrite !length_app, !le_bytes_length. reflexivity.
Qed.

Lemma wav_payload_wav_bytes riff fs af ch rate br ba bits ds payload :
  wav_payload (wav_bytes riff fs af ch rate br ba bits ds payload) = payload.
Proof. reflexivity. Qed.

Lemma fits_uint_iff w x : fits_uint w x = true <-> 0 <= x < 2 ^ (8 * Z.of_nat w).
Proof. unfold fits_uint. rewrite andb_true_iff, Z.leb_le, Z.ltb_lt. tauto. Qed.

Lemma fits_u32_iff x : fits_uint 4 x = true <-> 0 <= x < 2 ^ 32.
Proof. exact (fits_uint_iff 4 x). Qed.

Lemma fits_u16_iff x : fits_uint 2 x = true <-> 0 <= x < 2 ^ 16.
Proof. exact (fits_uint_iff 2 x). Qed.

(** [_pcm_to_wav] in closed form. *)
Lemma pcm_to_wav_spec pcm rate ch sw :
  let n := Z.of_nat (List.length pcm) in
  pcm_to_wav pcm rate ch sw =
  if fits_uint 4 (36 + n) && fits_uint 2 ch && fits_uint 4 rate
     && fits_uint 4 (rate * ch * sw) && fits_uint 2 (ch * sw) && fits_uint 2 (sw * 8)
     && fits_uint 4 n
  then Some (wav_bytes (36 + n) 16 1 ch rate (rate * ch * sw) (ch * sw) (sw * 8) n pcm)
  else None.
Proof.
  intros n. unfold pcm_to_wav. fold n. cbn [struct_pack pack_field]. unfold pack_uint.
  destruct (fits_uint 4 (36 + n)); [|reflexivity].
  destruct (fits_uint 2 ch); [|reflexivity].
  destruct (fits_uint 4 rate); [|reflexivity].
  destruct (fits_uint 4 (rate * ch * sw)); [|reflexivity].
  destruct (fits_uint 2 (ch * sw)); [|reflexivity].
  destruct (fits_uint 2 (sw * 8)); [|reflexivity].
  destruct (fits_uint 4 n); [|reflexivity].
  cbn. rewrite ?app_nil_r. reflexivity.
Qed.

(** [_convert_audio_to_wav] in closed form. *)
Lemma convert_audio_to_wav_spec d mime :
  let n := Z.of_nat (List.length d) in
  let '(bits, rate) := parse_mime mime in
  convert_audio_to_wav d mime =
  if fits_uint 4 (36 + n) && fits_uint 4 rate && fits_uint 4 (rate * (1 * (bits / 8)))
     && fits_uint 2 (1 * (bits / 8)) && fits_uint 2 bits && fits_uint 4 n
  then Some (wav_bytes (36 + n) 16 1 1 rate (rate * (1 * (bits / 8))) (1 * (bits / 8))
               bits n d)
  else None.
Proof.
  intros n. unfold convert_audio_to_wav. destruct (parse_mime mime) as [bits rate].
  fold n. cbn [struct_pack pack_field]. unfold pack_uint.
  destruct (fits_uint 4 (36 + n)); [|reflexivity].
  destruct (fits_uint 4 rate); [|reflexivity].
  destruct (fits_uint 4 (rate * (1 * (bits / 8)))); [|reflexivity].
  destruct (fits_uint 2 (1 * (bits / 8))); [|reflexivity].
  destruct (fits_uint 2 bits); [|reflexivity].
  destruct (fits_uint 4 n); [|reflexivity].
  cbn. rewrite ?app_nil_r. reflexivity.
Qed.

Ltac fold_const_fits :=
  repeat match goal with
         | |- context [fits_uint ?w ?x] =>
             let E := fresh in
             assert (E : fits_uint w x = true) by reflexivity; rewrite E; clear E
         end.

Lemma mime_step_rate acc p : rate_unparsed p -> snd (mime_step acc p) = snd acc.
Proof.
  destruct acc as [bits rate]. unfold rate_unparsed, mime_step.
  destruct (startswith (py_lower (py_strip p)) "rate=") eqn:R.
  - intros H. specialize (H eq_refl).
    destruct (after_first "=" (py_strip p)); [rewrite H|]; reflexivity.
  - intros _. destruct (startswith (py_strip p) "audio/L");
      [destruct (after_first "L" (py_strip p)) as [b|];
       [destruct (py_int b)|] |]; reflexivity.
Qed.

Lemma mime_step_bits acc p : bits_unparsed p -> fst (mime_step acc p) = fst acc.
Proof.
  destruct acc as [bits rate]. unfold bits_unparsed, mime_step.
  destruct (startswith (py_lower (py_strip p)) "rate=") eqn:R.
  - intros _. destruct (after_first "=" (py_strip p)) as [r|];
      [destruct (py_int r)|]; reflexivity.
  - intros H. destruct (startswith (py_strip p) "audio/L") eqn:A; [|reflexivity].
    specialize (H eq_refl eq_refl).
    destruct (after_first "L" (py_strip p)); [rewrite H|]; reflexivity.
Qed.

Lemma fold_mime_rate l acc :
  Forall rate_unparsed l -> snd (fold_left mime_step l acc) = snd acc.
Proof.
  revert acc; induction l as [|p l IH]; intros acc H; [reflexivity|].
  inversion H; subst. simpl. rewrite IH by assumption. apply mime_step_rate; assumption.
Qed.

Lemma fold_mime_bits l acc :
  Forall bits_unparsed l -> fst (fold_left mime_step l acc) = fst acc.
Proof.
  revert acc; induction l as [|p l IH]; intros acc H; [reflexivity|].
  inversion H; subst. simpl. rewrite IH by assumption. apply mime_step_bits; assumption.
Qed.

(* ------------------------------------------------------------------ *)
(** ** Lemmas on the monad *)

Definition always_fails {A} (m : M A) : Prop := forall w, is_err (fst (m w)) = true.
Definition never_raises {A} (m : M A) : Prop := forall w, is_err (fst (m w)) = false.

Lemma bind_ok {A B} (m : M A) (k : A -> M B) w a :
  fst (m w) = Ok a -> bind m k w = k a (snd (m w)).
Proof. unfold bind. destruct (m w) as [[|] w']; simpl; intros H; inversion H; reflexivity. Qed.

Lemma bind_always_fails {A B} (m : M A) (k : A -> M B) :
  (forall a, always_fails (k a)) -> always_fails (bind m k).
Proof. intros H w. unfold bind. destruct (m w) as [[a|e] w']; [apply H | reflexivity]. Qed.

Lemma bind_fails_l {A B} (m : M A) (k : A -> M B) :
  always_fails m -> always_fails (bind m k).
Proof.
  intros H w. unfold bind. specialize (H w).
  destruct (m w) as [[a|e] w']; [discriminate | reflexivity].
Qed.

Lemma lift_err_fails {A} (r : result A) : is_err r = true -> always_fails (lift r).
Proof. intros H w. exact H. Qed.

Lemma raise_fails {A} e : always_fails (@raise A e).
Proof. intros w. reflexivity. Qed.

Lemma catch_fails {A} (m : M A) h :
  always_fails m -> (forall e, always_fails (h e)) -> always_fails (catch m h).
Proof.
  intros Hm Hh w. unfold catch. specialize (Hm w).
  destruct (m w) as [[a|e] w']; [discriminate | apply Hh].
Qed.

Lemma returned_fails m : always_fails m -> always_fails (returned m).
Proof. apply bind_fails_l. Qed.

Lemma caught_none m w : always_fails m -> fst (caught m w) = Ok None.
Proof.
  intros H. unfold caught, catch. specialize (H w).
  destruct (m w) as [[a|e] w']; [discriminate | reflexivity].
Qed.

Lemma ret_never_raises {A} (a : A) : never_raises (ret a).
Proof. intros w. reflexivity. Qed.

Lemma caught_never_raises m : never_raises (caught m).
Proof. intros w. unfold caught, catch. destruct (m w) as [[a|e] w']; reflexivity. Qed.

Lemma bind_never_raises {A B} (m : M A) (k : A -> M B) :
  never_raises m -> (forall a, never_raises (k a)) -> never_raises (bind m k).
Proof.
  intros Hm Hk w. unfold bind. specialize (Hm w).
  destruct (m w) as [[a|e] w']; [apply Hk | discriminate].
Qed.

Ltac fails_chain :=
  repeat first
    [ apply raise_fails
    | apply lift_err_fails
    | apply bind_always_fails; intro ].

Section Failing.

Variables (rt : runtime) (bk : backends).
Hypothesis Hfail : all_backends_fail bk.

Lemma generate_tts_async_fails text vc : always_fails (generate_tts_async rt bk text vc).
Proof.
  destruct Hfail as (H1 & _ & _).
  unfold generate_tts_async. destruct (String.eqb (py_strip text) ""); cbv zeta.
  - apply raise_fails.
  - fails_chain. apply H1.
Qed.

Lemma stage_live_none text vc w : fst (stage_live rt bk text vc w) = Ok None.
Proof.
  apply caught_none. pose proof (generate_tts_async_fails text vc) as Ha.
  destruct (event_loop rt).
  - apply returned_fails, Ha.
  - apply catch_fails; [apply returned_fails, Ha|].
    intros e. destruct (is_runtime_error e); [apply returned_fails, Ha | apply raise_fails].
  - apply catch_fails; [apply returned_fails, Ha|].
    intros e. destruct (is_runtime_error e); apply raise_fails.
Qed.

Lemma v1beta1_fails text v p : always_fails (generate_tts_gcloud_v1beta1 rt bk text v p).
Proof.
  destruct Hfail as (_ & H2 & _).
  unfold generate_tts_gcloud_v1beta1. destruct (negb (gemini_available rt)); cbv zeta.
  - apply raise_fails.
  - fails_chain. apply H2.
Qed.

Lemma stage_gemini_none text vc p w : fst (stage_gemini rt bk text vc p w) = Ok None.
Proof.
  unfold stage_gemini. cbv zeta.
  match goal with |- context [if ?c then _ else _] => destruct c end.
  - apply caught_none, returned_fails, v1beta1_fails.
  - reflexivity.
Qed.

Lemma gcloud_fails text vc : always_fails (generate_tts_gcloud rt bk text vc).
Proof.
  destruct Hfail as (_ & _ & H3).
  unfold generate_tts_gcloud. destruct (negb (gcloud_available rt)); cbv zeta.
  - apply raise_fails.
  - fails_chain. apply H3.
Qed.

Lemma stage_gcloud_none text vc w : fst (stage_gcloud rt bk text vc w) = Ok None.
Proof. apply caught_none, returned_fails, gcloud_fails. Qed.

End Failing.

Lemma generate_tts_tail_never_raises rt bk text vc :
  let provider := get_or vc "provider" (VStr (DEFAULT_TTS_PROVIDER (env rt))) in
  never_raises
    (r1 <- (if gemini_available rt then stage_live rt bk text vc else ret None) ;;
     match r1 with
     | Some audio => ret audio
     | None =>
       r2 <- (if gemini_available rt then stage_gemini rt bk text vc provider else ret None) ;;
       match r2 with
       | Some audio => ret audio
       | None =>
         r3 <- (if is_str provider "gcloud" && gcloud_available rt
                then stage_gcloud rt bk text vc else ret None) ;;
         match r3 with Some audio => ret audio | None => ret empty_wav end
       end
     end).
Proof.
  intros provider.
  apply bind_never_raises;
    [destruct (gemini_available rt); [apply caught_never_raises | apply ret_never_raises]|].
  intros [a|]; [apply ret_never_raises|].
  apply bind_never_raises;
    [destruct (gemini_available rt); [apply caught_never_raises | apply ret_never_raises]|].
  intros [a|]; [apply ret_never_raises|].
  apply bind_never_raises;
    [destruct (_ && _); [apply caught_never_raises | apply ret_never_raises]|].
  intros [a|]; apply ret_never_raises.
Qed.


(* ------------------------------------------------------------------ *)
(** ** Lemmas on the order of strings, [sorted] and dicts *)

Lemma str_compare_trans a b c :
  String.compare a b = Lt -> String.compare b c = Lt -> String.compare a c = Lt.
Proof.
  revert b c; induction a as [|x a IH]; intros [|y b] [|z c] H1 H2;
    simpl in *; try discriminate; try reflexivity.
  revert H1 H2; unfold Ascii.compare.
  destruct (N.compare_spec (N_of_ascii x) (N_of_ascii y)) as [E1|E1|E1];
  destruct (N.compare_spec (N_of_ascii y) (N_of_ascii z)) as [E2|E2|E2];
  destruct (N.compare_spec (N_of_ascii x) (N_of_ascii z)) as [E3|E3|E3];
  intros H1 H2; try discriminate; try reflexivity; try lia; eauto.
Qed.

Lemma ltb_trans a b c : String.ltb a b = true -> String.ltb b c = true -> String.ltb a c = true.
Proof.
  unfold String.ltb. intros H1 H2.
  destruct (String.compare a b) eqn:E1; try discriminate.
  destruct (String.compare b c) eqn:E2; try discriminate.
  rewrite (str_compare_trans _ _ _ E1 E2). reflexivity.
Qed.

Lemma ltb_asym a b : String.ltb a b = true -> String.ltb b a = false.
Proof.
  unfold String.ltb. rewrite (String.compare_antisym b a).
  destruct (String.compare a b); simpl; congruence.
Qed.

Lemma ltb_total a b : a <> b -> String.ltb a b = false -> String.ltb b a = true.
Proof.
  unfold String.ltb. rewrite (String.compare_antisym b a). intros Hne.
  destruct (String.compare a b) eqn:E; simpl; try congruence.
  apply String.compare_eq_iff in E. contradiction.
Qed.

Ltac order_contra :=
  match goal with
  | H1 : ?e = true, H2 : ?e = false |- _ => rewrite H1 in H2; discriminate
  | H1 : String.ltb ?a ?b = true, H2 : String.ltb ?b ?a = true |- _ =>
      rewrite (ltb_asym _ _ H1) in H2; discriminate
  | H1 : String.ltb ?a ?b = true, H2 : String.ltb ?b ?c = true,
    H3 : String.ltb ?a ?c = false |- _ =>
      rewrite (ltb_trans _ _ _ H1 H2) in H3; discriminate
  | Hne : ?a <> ?b, H1 : String.ltb ?a ?b = false, H2 : String.ltb ?b ?a = false |- _ =>
      rewrite (ltb_total _ _ Hne H1) in H2; discriminate
  end.

Lemma insert_item_comm x y l :
  fst x <> fst y -> insert_item x (insert_item y l) = insert_item y (insert_item x l).
Proof.
  intros Hne. induction l as [|z l IH];
    repeat (simpl; match goal with
                   | |- context [String.ltb ?a ?b] => destruct (String.ltb a b) eqn:?
                   end);
    try reflexivity; try (f_equal; exact IH); try discriminate; exfalso; order_contra.
Qed.

Lemma sort_items_perm l1 l2 :
  Permutation l1 l2 -> NoDup (map fst l1) -> sort_items l1 = sort_items l2.
Proof.
  unfold sort_items.
  induction 1 as [|x l1 l2 P IH|x y l|l1 l2 l3 P1 IH1 P2 IH2]; intros Hnd; simpl.
  - reflexivity.
  - inversion Hnd; subst. rewrite IH; auto.
  - inversion Hnd as [|? ? Hy]; subst. apply insert_item_comm.
    intros E. apply Hy. left. congruence.
  - rewrite IH1 by exact Hnd. apply IH2.
    exact (Permutation_NoDup (Permutation_map fst P1) Hnd).
Qed.

Lemma dict_set_keys d k v k' :
  In k' (map fst (dict_set d k v)) <-> k' = k \/ In k' (map fst d).
Proof.
  induction d as [|[k0 v0] d IH]; simpl.
  - intuition.
  - destruct (String.eqb k k0) eqn:E; simpl.
    + apply String.eqb_eq in E; subst. intuition.
    + rewrite IH. intuition.
Qed.

Lemma dict_set_nodup d k v : NoDup (map fst d) -> NoDup (map fst (dict_set d k v)).
Proof.
  induction d as [|[k0 v0] d IH]; simpl; intros H.
  - constructor; [simpl; tauto | constructor].
  - destruct (String.eqb k k0) eqn:E; simpl.
    + apply String.eqb_eq in E; subst. exact H.
    + inversion H as [|? ? Hk0 Hd]; subst. constructor; [|auto].
      rewrite dict_set_keys. intros [->|Hin]; [|contradiction].
      rewrite String.eqb_refl in E. discriminate.
Qed.

Lemma dict_of_nodup items : NoDup (map fst (dict_of items)).
Proof.
  unfold dict_of.
  assert (G : forall d, NoDup (map fst d) ->
            NoDup (map fst (fold_left (fun d kv => dict_set d (fst kv) (snd kv)) items d))).
  { induction items as [|kv items IH]; simpl; intros d H; auto using dict_set_nodup. }
  apply G. constructor.
Qed.

Lemma dict_get_in d k v : NoDup (map fst d) -> dict_get d k = Some v <-> In (k, v) d.
Proof.
  induction d as [|[k0 v0] d IH]; simpl; intros H.
  - split; [discriminate | tauto].
  - inversion H as [|? ? Hk0 Hd]; subst.
    destruct (String.eqb k k0) eqn:E.
    + apply String.eqb_eq in E; subst. split.
      * intros [= ->]. left. reflexivity.
      * intros [E|Hin]; [congruence|].
        exfalso. apply Hk0. exact (in_map fst _ _ Hin).
    + rewrite IH by exact Hd. split; [intros; right; assumption|].
      intros [E'|Hin]; [|exact Hin].
      inversion E'; subst. rewrite String.eqb_refl in E. discriminate.
Qed.

Lemma dict_perm d1 d2 :
  NoDup (map fst d1) -> NoDup (map fst d2) ->
  (forall k, dict_get d1 k = dict_get d2 k) -> Permutation d1 d2.
Proof.
  intros N1 N2 H. apply NoDup_Permutation.
  - exact (NoDup_map_inv _ _ N1).
  - exact (NoDup_map_inv _ _ N2).
  - intros [k v]. rewrite <- (dict_get_in d1) by exact N1.
    rewrite <- (dict_get_in d2) by exact N2. rewrite H. tauto.
Qed.

(* ------------------------------------------------------------------ *)
(** ** Lemmas on [get_audio_url] *)

(** A live, non-empty entry is a hit: nothing but the [GET] happens. *)
Lemma get_audio_url_hit rt bk text key vc ttl w v e :
  key <> "" -> store w key = Some (v, e) -> entry_alive (v, e) (clock w) = true -> v <> "" ->
  get_audio_url rt bk text key vc ttl w = (Ok (url_of (mime_of rt vc) v), log_get w key).
Proof.
  intros Hk Es Ea Hv.
  unfold get_audio_url. apply String.eqb_neq in Hk, Hv. rewrite Hk. cbv zeta.
  unfold bind at 1, redis_get. rewrite Es. cbv beta iota. rewrite Ea. cbv beta iota.
  change (fst (v, e)) with v. rewrite Hv. reflexivity.
Qed.

(** Otherwise [get_audio_url] synthesizes, stores and returns. *)
Lemma get_audio_url_miss_step rt bk text key vc ttl w :
  key <> "" -> cache_miss w key = true ->
  get_audio_url rt bk text key vc ttl w =
  bind (generate_tts rt bk text vc)
    (fun audio_bytes =>
       (if 0 <? ttl then redis_set key (b64encode audio_bytes) (Some ttl)
        else redis_set key (b64encode audio_bytes) None) ;;;
       ret (url_of (mime_of rt vc) (b64encode audio_bytes)))
    (log_get w key).
Proof.
  intros Hk Hmiss.
  unfold get_audio_url. apply String.eqb_neq in Hk. rewrite Hk. cbv zeta.
  unfold cache_miss in Hmiss. revert Hmiss.
  unfold bind at 1, redis_get.
  destruct (store w key) as [[v e]|]; cbv beta iota; [|reflexivity].
  simpl fst. destruct (entry_alive (v, e) (clock w)); cbv iota; simpl negb; intros H;
    [|reflexivity].
  apply String.eqb_eq in H. subst v. reflexivity.
Qed.

(* ------------------------------------------------------------------ *)
(** ** Reasoning about what a computation does to the world *)

Class WorldPreorder (R : world -> world -> Prop) := {
  wp_refl : forall w, R w w;
  wp_trans : forall w1 w2 w3, R w1 w2 -> R w2 w3 -> R w1 w3 }.

Section Along.

Context {R : world -> world -> Prop} `{WorldPreorder R}.

Lemma along_ret {A} (a : A) : along R (ret a).
Proof. intros w. apply wp_refl. Qed.

Lemma along_raise {A} e : along R (@raise A e).
Proof. intros w. apply wp_refl. Qed.

Lemma along_lift {A} (r : result A) : along R (lift r).
Proof. intros w. apply wp_refl. Qed.

Lemma along_count_events p : along R (count_events p).
Proof. intros w. apply wp_refl. Qed.

Lemma along_get_world : along R get_world.
Proof. intros w. apply wp_refl. Qed.

Lemma along_bind {A B} (m : M A) (k : A -> M B) :
  along R m -> (forall a, along R (k a)) -> along R (bind m k).
Proof.
  intros Hm Hk w. unfold bind. specialize (Hm w).
  destruct (m w) as [[a|e] w']; simpl in *; [|exact Hm].
  eapply wp_trans; [exact Hm | apply Hk].
Qed.

Lemma along_catch {A} (m : M A) h :
  along R m -> (forall e, along R (h e)) -> along R (catch m h).
Proof.
  intros Hm Hh w. unfold catch. specialize (Hm w).
  destruct (m w) as [[a|e] w']; simpl in *; [exact Hm|].
  eapply wp_trans; [exact Hm | apply Hh].
Qed.

End Along.

Ltac along_tac :=
  repeat first
    [ apply along_ret | apply along_raise | apply along_lift | apply along_count_events
    | apply along_bind; [|intros ?] | apply along_catch; [|intros ?] ].

#[export] Instance adds_only_preorder P : WorldPreorder (adds_only P).
Proof.
  split.
  - intros w. split; [reflexivity | split; [reflexivity|]].
    exists []. rewrite app_nil_r. split; [reflexivity | constructor].
  - intros w1 w2 w3 [S1 [C1 [s1 [T1 F1]]]] [S2 [C2 [s2 [T2 F2]]]].
    split; [congruence | split; [congruence|]].
    exists (s1 ++ s2). rewrite T2, T1, app_assoc. split; [reflexivity|].
    apply Forall_app. split; assumption.
Qed.

#[export] Instance keeps_client_inv_preorder : WorldPreorder keeps_client_inv.
Proof. split; unfold keeps_client_inv; auto. Qed.

#[export] Instance only_key_preorder key : WorldPreorder (only_key key).
Proof.
  split.
  - intros w. split; [reflexivity | intros; reflexivity].
  - intros w1 w2 w3 [C1 S1] [C2 S2]. split; [congruence|].
    intros k Hk. rewrite S2, S1 by exact Hk. reflexivity.
Qed.

Lemma is_str_eq v s : is_str v s = true -> v = VStr s.
Proof. destruct v; simpl; try discriminate. intros E. apply String.eqb_eq in E. congruence. Qed.

Lemma startswith_app p s : startswith (p ++ s) p = true.
Proof.
  unfold startswith. induction p as [|c p IH]; simpl.
  - destruct s; reflexivity.
  - destruct (ascii_dec c c) as [_|n]; [exact IH | contradiction n; reflexivity].
Qed.

(** Every Live model name starts with [models/]. *)
Lemma live_model_prefix rt text vc :
  startswith (live_model (live_request_of rt text vc)) "models/" = true.
Proof.
  unfold live_request_of. cbv zeta. cbn [live_model].
  destruct (truthy (get_default vc "model" VNone)).
  - destruct (startswith (py_str (get_default vc "model" VNone)) "models/") eqn:E;
      [exact E | apply startswith_app].
  - unfold DEFAULT_TTS_MODEL_FULL.
    destruct (startswith (DEFAULT_TTS_MODEL (env rt)) "models/") eqn:E;
      [exact E | apply startswith_app].
Qed.

(* The events of [generate_tts] *)

Lemma adds_emit P ev : P ev -> along (adds_only P) (emit ev).
Proof.
  intros Hp w. split; [reflexivity | split; [reflexivity|]].
  exists [ev]. split; [reflexivity | constructor; [exact Hp | constructor]].
Qed.

Lemma adds_live_client P rt : P EvLiveClient -> along (adds_only P) (get_gemini_live_client rt).
Proof.
  intros Hp. unfold get_gemini_live_client. intros w. unfold bind, get_world.
  destruct (live_client w); [apply wp_refl|].
  unfold get_gemini_api_key. destruct (env rt "GEMINI_API_KEY") as [k|];
    [destruct (String.eqb k "")|]; try apply wp_refl.
  apply (adds_emit P EvLiveClient Hp w).
Qed.

Section Events.

Variables (rt : runtime) (bk : backends) (text : string) (vc : dict).
Let P := tts_event_ok rt text vc.

Lemma adds_caught m : along (adds_only P) m -> along (adds_only P) (caught m).
Proof.
  intros Hm. unfold caught. along_tac; [exact Hm|]. apply adds_emit. exact I.
Qed.

Lemma adds_returned m : along (adds_only P) m -> along (adds_only P) (returned m).
Proof. intros Hm. unfold returned. along_tac. exact Hm. Qed.

Lemma adds_async : gemini_available rt = true -> along (adds_only P) (generate_tts_async rt bk text vc).
Proof.
  intros Hg. unfold generate_tts_async.
  destruct (String.eqb (py_strip text) ""); [apply along_raise|]. cbv zeta.
  apply along_bind; [apply adds_live_client, Hg | intros _].
  along_tac. apply adds_emit. split; [exact Hg | reflexivity].
Qed.

Lemma adds_stage_live : gemini_available rt = true -> along (adds_only P) (stage_live rt bk text vc).
Proof.
  intros Hg. unfold stage_live. apply adds_caught.
  destruct (event_loop rt); [apply adds_returned, adds_async, Hg | |];
    (apply along_catch; [apply adds_returned, adds_async, Hg | intros e]);
    destruct (is_runtime_error e);
    first [apply along_raise | apply adds_returned, adds_async, Hg].
Qed.

Lemma adds_stage_gemini :
  gemini_available rt = true ->
  along (adds_only P) (stage_gemini rt bk text vc (provider_of rt vc)).
Proof.
  intros Hg. unfold stage_gemini. apply adds_caught. cbv zeta.
  destruct (_ || _); [|apply along_ret].
  apply adds_returned. unfold generate_tts_gcloud_v1beta1.
  rewrite Hg. cbv [negb]. along_tac.
  - unfold get_gemini_api_key. destruct (env rt "GEMINI_API_KEY") as [k|];
      [destruct (String.eqb k "")|]; along_tac.
  - apply adds_emit. split; [exact Hg|].
    destruct (is_str (get_or vc "voiceName" _) "Leda") eqn:E;
      [apply is_str_eq in E; rewrite E|]; reflexivity.
Qed.

Lemma adds_stage_gcloud :
  is_str (provider_of rt vc) "gcloud" = true ->
  along (adds_only P) (stage_gcloud rt bk text vc).
Proof.
  intros Hp. unfold stage_gcloud. apply adds_caught, adds_returned.
  unfold generate_tts_gcloud. destruct (gcloud_available rt) eqn:Hc; cbv [negb]; along_tac.
  - apply adds_emit. split; assumption.
  - apply adds_emit. split; [assumption | split; [assumption | reflexivity]].
Qed.

Lemma adds_generate_tts : along (adds_only P) (generate_tts rt bk text vc).
Proof.
  unfold generate_tts.
  destruct (String.eqb (py_strip text) ""); [apply along_raise|]. cbv zeta.
  fold (provider_of rt vc).
  apply along_bind;
    [destruct (gemini_available rt) eqn:Hg; [apply adds_stage_live, Hg | apply along_ret]|].
  intros [a|]; [apply along_ret|].
  apply along_bind;
    [destruct (gemini_available rt) eqn:Hg; [apply adds_stage_gemini, Hg | apply along_ret]|].
  intros [a|]; [apply along_ret|].
  apply along_bind.
  - destruct (is_str (provider_of rt vc) "gcloud") eqn:Hp; simpl; [|apply along_ret].
    destruct (gcloud_available rt); [apply adds_stage_gcloud, Hp | apply along_ret].
  - intros [a|]; apply along_ret.
Qed.

End Events.

(* The Live client is created at most once *)

Lemma inv_emit ev : is_live_client ev = false -> along keeps_client_inv (emit ev).
Proof.
  intros Hev w Hw. unfold client_inv in *. simpl.
  rewrite filter_app, length_app. simpl. rewrite Hev. simpl. rewrite Nat.add_0_r. exact Hw.
Qed.

Lemma inv_live_client rt : along keeps_client_inv (get_gemini_live_client rt).
Proof.
  intros w Hw. unfold get_gemini_live_client, bind, get_world.
  destruct (live_client w) eqn:L; [exact Hw|].
  unfold get_gemini_api_key. destruct (env rt "GEMINI_API_KEY") as [k|];
    [destruct (String.eqb k "")|]; try exact Hw.
  unfold client_inv in *. rewrite L in Hw. simpl.
  rewrite filter_app, length_app, Hw. reflexivity.
Qed.

Ltac inv_tac :=
  repeat first [ progress along_tac | apply inv_emit; reflexivity ].

Section ClientInv.

Variables (rt : runtime) (bk : backends).

Lemma inv_async text vc : along keeps_client_inv (generate_tts_async rt bk text vc).
Proof.
  unfold generate_tts_async.
  destruct (String.eqb (py_strip text) ""); [apply along_raise|]. cbv zeta.
  apply along_bind; [apply inv_live_client | intros _]. inv_tac.
Qed.

Lemma inv_caught m : along keeps_client_inv m -> along keeps_client_inv (caught m).
Proof. intros Hm. unfold caught. inv_tac. exact Hm. Qed.

Lemma inv_returned m : along keeps_client_inv m -> along keeps_client_inv (returned m).
Proof. intros Hm. unfold returned. inv_tac. exact Hm. Qed.

Lemma inv_generate_tts text vc : along keeps_client_inv (generate_tts rt bk text vc).
Proof.
  unfold generate_tts.
  destruct (String.eqb (py_strip text) ""); [apply along_raise|]. cbv zeta.
  assert (Hl : along keeps_client_inv (stage_live rt bk text vc)).
  { unfold stage_live. apply inv_caught.
    destruct (event_loop rt); [apply inv_returned, inv_async | |];
      (apply along_catch; [apply inv_returned, inv_async | intros e]);
      destruct (is_runtime_error e);
      first [apply along_raise | apply inv_returned, inv_async]. }
  assert (Hm : forall p, along keeps_client_inv (stage_gemini rt bk text vc p)).
  { intros p. unfold stage_gemini. apply inv_caught. cbv zeta.
    destruct (_ || _); [|apply along_ret].
    apply inv_returned. unfold generate_tts_gcloud_v1beta1.
    destruct (negb (gemini_available rt)); [apply along_raise|].
    apply along_bind; [|intros _; inv_tac].
    unfold get_gemini_api_key. destruct (env rt "GEMINI_API_KEY") as [k|];
      [destruct (String.eqb k "")|]; along_tac. }
  assert (Hc : along keeps_client_inv (stage_gcloud rt bk text vc)).
  { unfold stage_gcloud. apply inv_caught, inv_returned. unfold generate_tts_gcloud.
    destruct (negb (gcloud_available rt)); inv_tac. }
  apply along_bind; [destruct (gemini_available rt); [exact Hl | apply along_ret]|].
  intros [a|]; [apply along_ret|].
  apply along_bind; [destruct (gemini_available rt); [apply Hm | apply along_ret]|].
  intros [a|]; [apply along_ret|].
  apply along_bind; [destruct (_ && _); [exact Hc | apply along_ret]|].
  intros [a|]; apply along_ret.
Qed.

Lemma inv_get_audio_url text key vc ttl :
  along keeps_client_inv (get_audio_url rt bk text key vc ttl).
Proof.
  unfold get_audio_url. destruct (String.eqb key ""); [apply along_raise|]. cbv zeta.
  assert (Hset : forall k v t, along keeps_client_inv (redis_set k v t)).
  { intros k v t w Hw. unfold client_inv in *. simpl.
    rewrite filter_app, length_app, Hw. simpl. apply Nat.add_0_r. }
  assert (Hmiss : along keeps_client_inv
    (audio_bytes <- generate_tts rt bk text vc ;;
     (if 0 <? ttl then redis_set key (b64encode audio_bytes) (Some ttl)
      else redis_set key (b64encode audio_bytes) None) ;;;
     ret (url_of (mime_of rt vc) (b64encode audio_bytes)))).
  { apply along_bind; [apply inv_generate_tts | intros a].
    apply along_bind; [destruct (0 <? ttl); apply Hset | intros _; apply along_ret]. }
  apply along_bind.
  - intros w Hw. unfold client_inv in *. simpl.
    rewrite filter_app, length_app, Hw. simpl. apply Nat.add_0_r.
  - intros [v|]; [destruct (negb _); [apply along_ret | exact Hmiss] | exact Hmiss].
Qed.

End ClientInv.

(* [get_audio_url] only writes its own key *)

Lemma adds_only_key P key {A} (m : M A) : along (adds_only P) m -> along (only_key key) m.
Proof.
  intros Hm w. destruct (Hm w) as [S [C _]]. split; [exact C|]. intros k _. rewrite S. reflexivity.
Qed.

Lemma only_key_get_audio_url rt bk text key vc ttl :
  along (only_key key) (get_audio_url rt bk text key vc ttl).
Proof.
  unfold get_audio_url. destruct (String.eqb key ""); [apply along_raise|]. cbv zeta.
  assert (Hmiss : along (only_key key)
    (audio_bytes <- generate_tts rt bk text vc ;;
     (if 0 <? ttl then redis_set key (b64encode audio_bytes) (Some ttl)
      else redis_set key (b64encode audio_bytes) None) ;;;
     ret (url_of (mime_of rt vc) (b64encode audio_bytes)))).
  { apply along_bind; [eapply adds_only_key, adds_generate_tts | intros a].
    apply along_bind; [|intros _; apply along_ret].
    intros w. destruct (0 <? ttl); (split; [reflexivity|]); intros k Hk; simpl;
      apply String.eqb_neq in Hk; rewrite Hk; reflexivity. }
  apply along_bind.
  - intros w. split; reflexivity.
  - intros [v|]; [destruct (negb _); [apply along_ret | exact Hmiss] | exact Hmiss].
Qed.

(* How many Live sessions a call opens *)

Lemma lsam_weaken {A} n n' (m : M A) :
  (n <= n')%nat -> live_sessions_at_most n m -> live_sessions_at_most n' m.
Proof. intros L Hm w. destruct (Hm w) as [suf [T C]]. exists suf. split; [exact T | lia]. Qed.

Lemma lsam_adds {A} P (m : M A) :
  (forall ev, P ev -> is_live_session ev = false) ->
  along (adds_only P) m -> live_sessions_at_most 0 m.
Proof.
  intros HP Hm w. destruct (Hm w) as [_ [_ [suf [T F]]]]. exists suf. split; [exact T|].
  assert (E : filter is_live_session suf = []).
  { clear T. induction F as [|ev suf Hev F IH]; [reflexivity|]. simpl. rewrite (HP ev Hev). exact IH. }
  rewrite E. simpl. lia.
Qed.

Lemma lsam_bind {A B} n n' (m : M A) (k : A -> M B) :
  live_sessions_at_most n m -> (forall a, live_sessions_at_most n' (k a)) ->
  live_sessions_at_most (n + n') (bind m k).
Proof.
  intros Hm Hk w. unfold bind. destruct (Hm w) as [s1 [T1 C1]].
  destruct (m w) as [[a|e] w']; simpl in *.
  - destruct (Hk a w') as [s2 [T2 C2]]. exists (s1 ++ s2).
    rewrite T2, T1, app_assoc. split; [reflexivity|].
    rewrite filter_app, length_app. lia.
  - exists s1. split; [exact T1 | lia].
Qed.

Lemma lsam_catch {A} n n' (m : M A) h :
  live_sessions_at_most n m -> (forall e, live_sessions_at_most n' (h e)) ->
  live_sessions_at_most (n + n') (catch m h).
Proof.
  intros Hm Hh w. unfold catch. destruct (Hm w) as [s1 [T1 C1]].
  destruct (m w) as [[a|e] w']; simpl in *.
  - exists s1. split; [exact T1 | lia].
  - destruct (Hh e w') as [s2 [T2 C2]]. exists (s1 ++ s2).
    rewrite T2, T1, app_assoc. split; [reflexivity|].
    rewrite filter_app, length_app. lia.
Qed.

Lemma lsam_ret {A} (a : A) : live_sessions_at_most 0 (ret a).
Proof. intros w. exists []. rewrite app_nil_r. split; [reflexivity | simpl; lia]. Qed.

Lemma lsam_raise {A} e : live_sessions_at_most 0 (@raise A e).
Proof. intros w. exists []. rewrite app_nil_r. split; [reflexivity | simpl; lia]. Qed.

Lemma lsam_async rt bk text vc : live_sessions_at_most 1 (generate_tts_async rt bk text vc).
Proof.
  unfold generate_tts_async.
  destruct (String.eqb (py_strip text) ""); [apply (lsam_weaken 0); [lia | apply lsam_raise]|].
  cbv zeta.
  assert (Hc : live_sessions_at_most 0 (get_gemini_live_client rt)).
  { apply (lsam_adds (fun ev => ev = EvLiveClient)); [intros ev ->; reflexivity|].
    apply adds_live_client. reflexivity. }
  apply (lsam_bind 0 1); [exact Hc | intros _].
  apply (lsam_bind 0 1).
  { intros w'. exists []. rewrite app_nil_r. split; [reflexivity | simpl; lia]. }
  intros i. apply (lsam_bind 1 0).
  - intros w'. eexists. split; [reflexivity | simpl; lia].
  - intros _ w'. exists []. rewrite app_nil_r. split; [reflexivity | simpl; lia].
Qed.

Lemma lsam_lift {A} (r : result A) : live_sessions_at_most 0 (lift r).
Proof. intros w. exists []. rewrite app_nil_r. split; [reflexivity | simpl; lia]. Qed.

Lemma lsam_count p : live_sessions_at_most 0 (count_events p).
Proof. intros w. exists []. rewrite app_nil_r. split; [reflexivity | simpl; lia]. Qed.

Lemma lsam_emit ev : is_live_session ev = false -> live_sessions_at_most 0 (emit ev).
Proof. intros H w. exists [ev]. split; [reflexivity | simpl; rewrite H; simpl; lia]. Qed.

Ltac lsam_tac :=
  repeat first
    [ apply lsam_ret | apply lsam_raise | apply lsam_lift | apply lsam_count
    | apply lsam_emit; reflexivity
    | apply (lsam_bind 0 0); [|intros ?] | apply (lsam_catch 0 0); [|intros ?] ].

Lemma lsam_caught n m : live_sessions_at_most n m -> live_sessions_at_most n (caught m).
Proof.
  intros Hm. unfold caught. rewrite <- (Nat.add_0_r n). apply lsam_catch; [exact Hm|].
  intros e. lsam_tac.
Qed.

Lemma lsam_returned n m : live_sessions_at_most n m -> live_sessions_at_most n (returned m).
Proof.
  intros Hm. unfold returned. rewrite <- (Nat.add_0_r n). apply lsam_bind; [exact Hm|].
  intros a. apply lsam_ret.
Qed.

Lemma lsam_generate_tts rt bk text vc :
  live_sessions_at_most (match event_loop rt with LoopIdle => 2 | _ => 1 end)
    (generate_tts rt bk text vc).
Proof.
  unfold generate_tts.
  destruct (String.eqb (py_strip text) "");
    [eapply lsam_weaken; [|apply lsam_raise]; lia|]. cbv zeta.
  assert (Hl : live_sessions_at_most (match event_loop rt with LoopIdle => 2 | _ => 1 end)
                 (stage_live rt bk text vc)).
  { unfold stage_live. apply lsam_caught.
    destruct (event_loop rt).
    - apply lsam_returned, lsam_async.
    - apply (lsam_catch 1 1); [apply lsam_returned, lsam_async | intros e].
      destruct (is_runtime_error e); [apply lsam_returned, lsam_async | eapply lsam_weaken; [|apply lsam_raise]; lia].
    - apply (lsam_catch 1 0); [apply lsam_returned, lsam_async | intros e].
      destruct (is_runtime_error e); apply lsam_raise. }
  assert (Hg : forall p, live_sessions_at_most 0 (stage_gemini rt bk text vc p)).
  { intros p. unfold stage_gemini. apply lsam_caught. cbv zeta.
    destruct (_ || _); [|apply lsam_ret].
    apply lsam_returned. unfold generate_tts_gcloud_v1beta1.
    destruct (negb (gemini_available rt)); [apply lsam_raise|].
    apply (lsam_bind 0 0); [|intros _; lsam_tac].
    unfold get_gemini_api_key. destruct (env rt "GEMINI_API_KEY") as [k|];
      [destruct (String.eqb k "")|]; lsam_tac. }
  assert (Hc : live_sessions_at_most 0 (stage_gcloud rt bk text vc)).
  { unfold stage_gcloud. apply lsam_caught, lsam_returned. unfold generate_tts_gcloud.
    destruct (negb (gcloud_available rt)); lsam_tac. }
  set (n := (match event_loop rt with LoopIdle => 2 | _ => 1 end)%nat) in *.
  rewrite <- (Nat.add_0_r n).
  apply lsam_bind; [destruct (gemini_available rt); [exact Hl | eapply lsam_weaken; [|apply lsam_ret]; lia]|].
  intros [a|]; [apply lsam_ret|].
  apply (lsam_bind 0 0); [destruct (gemini_available rt); [apply Hg | apply lsam_ret]|].
  intros [a|]; [apply lsam_ret|].
  apply (lsam_bind 0 0); [destruct (_ && _); [exact Hc | apply lsam_ret]|].
  intros [a|]; apply lsam_ret.
Qed.

(* Returned values and raised exceptions *)

Lemma results_ret {A} (Q : A -> Prop) a : Q a -> results Q (ret a).
Proof. intros Hq w a' E. simpl in E. congruence. Qed.

Lemma results_raise {A} (Q : A -> Prop) e : results Q (raise e).
Proof. intros w a E. discriminate E. Qed.

Lemma results_lift {A} (Q : A -> Prop) r : (forall a, r = Ok a -> Q a) -> results Q (lift r).
Proof. intros Hq w a E. apply Hq. exact E. Qed.

Lemma results_bind {A B} (Q : B -> Prop) (m : M A) (k : A -> M B) :
  (forall a, results Q (k a)) -> results Q (bind m k).
Proof.
  intros Hk w b. unfold bind. destruct (m w) as [[a|e] w']; [apply Hk | discriminate].
Qed.

Lemma results_catch {A} (Q : A -> Prop) m h :
  results Q m -> (forall e, results Q (h e)) -> results Q (catch m h).
Proof.
  intros Hm Hh w a. unfold catch. specialize (Hm w a).
  destruct (m w) as [[a'|e] w']; [exact Hm | apply Hh].
Qed.

Lemma raises_ret {A} (Q : exc -> Prop) (a : A) : raises Q (ret a).
Proof. intros w e E. discriminate E. Qed.

Lemma raises_raise {A} (Q : exc -> Prop) e : Q e -> raises Q (@raise A e).
Proof. intros Hq w e' E. simpl in E. congruence. Qed.

Lemma raises_lift {A} (Q : exc -> Prop) (r : result A) :
  (forall e, r = Err e -> Q e) -> raises Q (lift r).
Proof. intros Hq w e E. apply Hq. exact E. Qed.

Lemma raises_count (Q : exc -> Prop) p : raises Q (count_events p).
Proof. intros w e E. discriminate E. Qed.

Lemma raises_emit (Q : exc -> Prop) ev : raises Q (emit ev).
Proof. intros w e E. discriminate E. Qed.

Lemma raises_bind {A B} (Q : exc -> Prop) (m : M A) (k : A -> M B) :
  raises Q m -> (forall a, raises Q (k a)) -> raises Q (bind m k).
Proof.
  intros Hm Hk w e. unfold bind. specialize (Hm w).
  destruct (m w) as [[a|e'] w']; [apply Hk|].
  simpl. intros E. injection E as <-. exact (Hm e' eq_refl).
Qed.

(** An adapter whose answer is non-empty whenever it answers. *)
Definition nonempty (a : list byte) : Prop := a <> [].

Definition some_nonempty (o : option (list byte)) : Prop :=
  match o with Some a => a <> [] | None => True end.

Lemma pcm_to_wav_nonempty pcm r c s w : pcm_to_wav pcm r c s = Some w -> w <> [].
Proof.
  pose proof (pcm_to_wav_spec pcm r c s) as Hs. cbv zeta in Hs. rewrite Hs.
  destruct (_ && _); [|discriminate].
  intros E. injection E as <-. intros E. apply (f_equal (@List.length byte)) in E.
  rewrite wav_bytes_length in E. simpl in E. lia.
Qed.

Lemma convert_audio_to_wav_nonempty d m w : convert_audio_to_wav d m = Some w -> w <> [].
Proof.
  pose proof (convert_audio_to_wav_spec d m) as Hs. cbv zeta in Hs.
  destruct (parse_mime m) as [bits rate]. rewrite Hs.
  destruct (_ && _); [|discriminate].
  intros E. injection E as <-. intros E. apply (f_equal (@List.length byte)) in E.
  rewrite wav_bytes_length in E. simpl in E. lia.
Qed.

Lemma live_finish_nonempty r a : live_finish r = Ok a -> a <> [].
Proof.
  unfold live_finish. destruct r as [[|b pcm]|e]; try discriminate.
  destruct (pcm_to_wav _ _ _ _) as [w|] eqn:E; [|discriminate].
  intros H. injection H as <-. exact (pcm_to_wav_nonempty _ _ _ _ _ E).
Qed.

Lemma gemini_finish_nonempty r a : gemini_finish r = Ok a -> a <> [].
Proof.
  unfold gemini_finish. destruct r as [[[|b d] mime]|e]; try discriminate.
  destruct mime as [m|]; [|intros H; injection H as <-; discriminate].
  destruct (_ && _); [|intros H; injection H as <-; discriminate].
  destruct (convert_audio_to_wav _ _) as [w|] eqn:E; [|discriminate].
  intros H. injection H as <-. exact (convert_audio_to_wav_nonempty _ _ _ E).
Qed.

Lemma results_caught m : results some_nonempty m -> results some_nonempty (caught m).
Proof.
  intros Hm. unfold caught. apply results_catch; [exact Hm|].
  intros e. apply results_bind. intros _. apply results_ret. exact I.
Qed.

Lemma results_returned m : results nonempty m -> results some_nonempty (returned m).
Proof.
  intros Hm w a. unfold returned, bind. specialize (Hm w).
  destruct (m w) as [[b|e] w']; simpl; [|discriminate].
  intros E. injection E as <-. exact (Hm b eq_refl).
Qed.

Lemma results_bind_dep {A B} (Q1 : A -> Prop) (Q : B -> Prop) (m : M A) (k : A -> M B) :
  results Q1 m -> (forall a, Q1 a -> results Q (k a)) -> results Q (bind m k).
Proof.
  intros Hm Hk w b. unfold bind. specialize (Hm w).
  destruct (m w) as [[a|e] w']; [apply Hk; exact (Hm a eq_refl) | discriminate].
Qed.

Lemma results_async rt bk text vc : results nonempty (generate_tts_async rt bk text vc).
Proof.
  unfold generate_tts_async. destruct (String.eqb _ _); [apply results_raise|].
  cbv zeta. apply results_bind; intros _. apply results_bind; intros i.
  apply results_bind; intros _. apply results_lift. apply live_finish_nonempty.
Qed.

Lemma results_v1beta1 rt bk text v p : results nonempty (generate_tts_gcloud_v1beta1 rt bk text v p).
Proof.
  unfold generate_tts_gcloud_v1beta1. destruct (negb _); [apply results_raise|].
  cbv zeta. apply results_bind; intros _. apply results_bind; intros i.
  apply results_bind; intros _. apply results_lift. apply gemini_finish_nonempty.
Qed.

Section Nonempty.

Variables (rt : runtime) (bk : backends).
Hypothesis Hsyn : forall j req, gcloud_synthesize bk j req <> Ok [].

Lemma results_gcloud text vc : results nonempty (generate_tts_gcloud rt bk text vc).
Proof.
  unfold generate_tts_gcloud. destruct (negb _); [apply results_raise|].
  cbv zeta. do 5 (apply results_bind; intros ?).
  apply results_lift. intros bs E Hb. subst bs. exact (Hsyn _ _ E).
Qed.

Lemma results_stage_live text vc : results some_nonempty (stage_live rt bk text vc).
Proof.
  unfold stage_live. apply results_caught.
  pose proof (results_returned _ (results_async rt bk text vc)) as Hr.
  destruct (event_loop rt); try exact Hr; apply results_catch; try exact Hr;
    intros e; destruct (is_runtime_error e); first [exact Hr | apply results_raise].
Qed.

Lemma results_stage_gemini text vc p : results some_nonempty (stage_gemini rt bk text vc p).
Proof.
  unfold stage_gemini. apply results_caught. cbv zeta.
  destruct (_ || _ || _); [apply results_returned, results_v1beta1 | apply results_ret; exact I].
Qed.

Lemma results_stage_gcloud text vc : results some_nonempty (stage_gcloud rt bk text vc).
Proof. apply results_caught, results_returned, results_gcloud. Qed.

Lemma results_generate_tts text vc : results nonempty (generate_tts rt bk text vc).
Proof.
  unfold generate_tts. destruct (String.eqb _ _); [apply results_raise|]. cbv zeta.
  apply (results_bind_dep some_nonempty).
  { destruct (gemini_available rt); [apply results_stage_live | apply results_ret; exact I]. }
  intros [a|] Ha; [apply results_ret; exact Ha|].
  apply (results_bind_dep some_nonempty).
  { destruct (gemini_available rt); [apply results_stage_gemini | apply results_ret; exact I]. }
  intros [b|] Hb; [apply results_ret; exact Hb|].
  apply (results_bind_dep some_nonempty).
  { destruct (_ && _); [apply results_stage_gcloud | apply results_ret; exact I]. }
  intros [c|] Hc; [apply results_ret; exact Hc|].
  apply results_ret. unfold nonempty, empty_wav. discriminate.
Qed.

End Nonempty.

Lemma raises_api_key (Q : exc -> Prop) rt :
  Q (ValueError "GEMINI_API_KEY environment variable is not set") -> raises Q (get_gemini_api_key rt).
Proof.
  intros Hq. unfold get_gemini_api_key.
  destruct (env rt "GEMINI_API_KEY") as [k|]; [destruct (String.eqb k "")|];
    first [apply raises_raise; exact Hq | apply raises_ret].
Qed.

Lemma gemini_finish_err r e : gemini_finish r = Err e -> is_runtime_error e = true.
Proof.
  unfold gemini_finish. destruct r as [[a mime]|e'].
  - destruct a as [|b d]; [intros H; injection H as <-; reflexivity|].
    destruct mime as [m|]; [|discriminate].
    destruct (_ && _); [|discriminate].
    destruct (convert_audio_to_wav _ _); [discriminate|].
    intros H; injection H as <-; reflexivity.
  - intros H; injection H as <-; reflexivity.
Qed.

(** The Live client when it is cached or the key is set. *)
Lemma live_client_ok rt w :
  (live_client w = true \/ exists k, env rt "GEMINI_API_KEY" = Some k /\ k <> "") ->
  get_gemini_live_client rt w
  = (Ok tt, mk_world (store w) (clock w) true
                     (trace w ++ if live_client w then [] else [EvLiveClient])).
Proof.
  destruct w as [s c l t]. cbn [live_client store clock trace]. intros H.
  unfold get_gemini_live_client, bind, get_world. cbn beta iota.
  destruct l.
  - cbn. rewrite app_nil_r. reflexivity.
  - destruct H as [H|[k [Hk Hne]]]; [discriminate|].
    unfold get_gemini_api_key. rewrite Hk, (proj2 (String.eqb_neq _ _) Hne). reflexivity.
Qed.

Lemma async_live_ok rt bk text vc w wav :
  py_strip text <> "" ->
  (live_client w = true \/ exists k, env rt "GEMINI_API_KEY" = Some k /\ k <> "") ->
  live_finish (live_session bk (List.length (filter is_live_session (trace w)))
                 (live_request_of rt text vc)) = Ok wav ->
  exists w1, generate_tts_async rt bk text vc w = (Ok wav, w1)
    /\ trace w1 = trace w ++ (if live_client w then [] else [EvLiveClient])
                  ++ [EvLiveSession (live_request_of rt text vc)].
Proof.
  intros Ht Hk Hl. unfold generate_tts_async.
  rewrite (proj2 (String.eqb_neq _ _) Ht). cbv zeta.
  unfold bind. cbv beta. rewrite (live_client_ok rt w Hk).
  unfold count_events, emit, lift. cbn [trace store clock live_client].
  assert (Hi : List.length (filter (fun ev => match ev with EvLiveSession _ => true | _ => false end)
                              (trace w ++ if live_client w then [] else [EvLiveClient]))
               = List.length (filter is_live_session (trace w))).
  { rewrite filter_app. destruct (live_client w); cbn [filter]; rewrite app_nil_r; reflexivity. }
  match goal with
  | |- context [live_session bk ?i ?r] =>
      replace (live_session bk i r)
        with (live_session bk (List.length (filter is_live_session (trace w)))
                (live_request_of rt text vc)) by (rewrite <- Hi; reflexivity)
  end.
  rewrite Hl. eexists. split; [reflexivity|]. cbn [trace]. rewrite app_assoc. reflexivity.
Qed.

Lemma stage_live_ok rt bk text vc w a w1 :
  generate_tts_async rt bk text vc w = (Ok a, w1) ->
  stage_live rt bk text vc w = (Ok (Some a), w1).
Proof.
  intros H. unfold stage_live, caught, catch, returned, bind. cbv beta.
  destruct (event_loop rt); rewrite H; reflexivity.
Qed.

Lemma filter_added_none P (f : event -> bool) suf :
  Forall P suf -> (forall ev, P ev -> f ev = false) -> filter f suf = [].
Proof.
  intros Hf Hp. induction Hf as [|ev suf Hev Hf IH]; [reflexivity|].
  cbn [filter]. rewrite (Hp ev Hev). exact IH.
Qed.

Lemma in_added {A} (x : A) l suf : In x (l ++ suf) -> ~ In x l -> In x suf.
Proof. intros H Hn. apply in_app_or in H. tauto. Qed.

(** Finds a member of a computed list. *)
Ltac find_in := vm_compute; repeat first [left; reflexivity | right].

Lemma b64encode_nonempty bs : bs <> [] -> b64encode bs <> "".
Proof. destruct bs as [|a [|b [|c rest]]]; intros H; [congruence | discriminate ..]. Qed.

(* ================================================================== *)
(** * Claims *)

(** C3 (as stated, refuted): the 24 kHz / 16-bit / mono encoder does not
    produce a container for every payload: once [36 + N] no longer fits
    the unsigned 32-bit RIFF size field, [struct.pack('<I', riff_size)]
    raises [struct.error]. Payload of [2^32 - 36] zero bytes. *)
Lemma C3_counterexample :
  pcm_to_wav (repeat Byte.x00 (Z.to_nat (2 ^ 32 - 36))) 24000 1 2 = None.
Proof.
  pose proof (pcm_to_wav_spec (repeat Byte.x00 (Z.to_nat (2 ^ 32 - 36))) 24000 1 2) as H.
  cbv zeta in H. rewrite H, repeat_length, Z2Nat.id by lia.
  assert (E : fits_uint 4 (36 + (2 ^ 32 - 36)) = false) by reflexivity.
  rewrite E. reflexivity.
Qed.

(** C3 (amended): for a PCM payload of [N] bytes at 24000 Hz, 16-bit,
    mono, [_pcm_to_wav] fails exactly when [36 + N >= 2^32]; otherwise the
    container has length [44 + N], its little-endian header declares
    RIFF size [36 + N], data size [N], byte rate [48000], block align 2,
    16 bits, 1 channel, the payload follows the header unchanged, and the
    container is well formed. *)
Theorem pcm_to_wav_24k_mono16 pcm :
  let n := Z.of_nat (List.length pcm) in
  match pcm_to_wav pcm 24000 1 2 with
  | Some w =>
      Z.of_nat (List.length w) = 44 + n
      /\ read_wav_header w = Some (mk_wav_header (36 + n) 16 1 1 24000 48000 2 16 n)
      /\ wav_payload w = pcm
      /\ wav_wellformed w = true
  | None => 2 ^ 32 <= 36 + n
  end.
Proof.
  intros n. pose proof (pcm_to_wav_spec pcm 24000 1 2) as H. cbv zeta in H.
  fold n in H. rewrite H. fold_const_fits. rewrite !andb_true_r.
  assert (Hn : 0 <= n) by (unfold n; lia).
  destruct (fits_uint 4 (36 + n)) eqn:E1.
  - apply fits_u32_iff in E1.
    assert (E2 : fits_uint 4 n = true) by (apply fits_u32_iff; lia).
    rewrite E2.
    assert (Hr : read_wav_header (wav_bytes (36 + n) 16 1 1 24000 (24000 * 1 * 2) (1 * 2)
                                    (2 * 8) n pcm)
                 = Some (mk_wav_header (36 + n) 16 1 1 24000 48000 2 16 n)).
    { apply read_wav_bytes; unfold in_u32, in_u16;
        change (2 ^ 32) with 4294967296; change (2 ^ 16) with 65536; lia. }
    split; [|split; [exact Hr|split; [reflexivity|]]].
    + rewrite wav_bytes_length. unfold n. lia.
    + unfold wav_wellformed. rewrite Hr, wav_bytes_length. cbn [h_riff_size h_fmt_size
        h_audio_format h_block_align h_channels h_bits h_byte_rate h_sample_rate h_data_size].
      fold n. rewrite Nat2Z.inj_add. fold n.
      repeat rewrite andb_true_iff; rewrite !Z.eqb_eq.
      change (Z.of_nat 44) with 44; change (16 / 8) with 2; lia.
  - cbn [andb]. apply Bool.not_true_iff_false in E1. rewrite fits_u32_iff in E1. lia.
Qed.

(** C10: for every payload [d], the MIME-driven encoder on
    ["audio/L16;rate=24000"] and the parameter-driven encoder at
    (24000 Hz, 1 channel, 2-byte samples) give the same result: the same
    bytes, or both [struct.error]. *)
Theorem convert_L16_24k_eq_pcm_to_wav d :
  convert_audio_to_wav d "audio/L16;rate=24000" = pcm_to_wav d 24000 1 2.
Proof.
  pose proof (convert_audio_to_wav_spec d "audio/L16;rate=24000") as Hc.
  pose proof (pcm_to_wav_spec d 24000 1 2) as Hp.
  assert (Hm : parse_mime "audio/L16;rate=24000" = (16, 24000)) by reflexivity.
  cbv zeta in Hc, Hp. rewrite Hm in Hc. rewrite Hc, Hp.
  fold_const_fits. rewrite !andb_true_r.
  destruct (fits_uint 4 (36 + Z.of_nat (List.length d))); reflexivity.
Qed.

(** C2 (as stated, refuted): the MIME-driven encoder raises no error for
    a malformed descriptor. A rate field ["abc"] is ignored and the
    default 24000 Hz is used, a zero rate and a zero bit depth are
    accepted, and a [channels] field is never looked at. *)
Lemma C2_counterexample :
  convert_audio_to_wav [] "audio/L16;rate=abc" = pcm_to_wav [] 24000 1 2
  /\ convert_audio_to_wav [] "audio/L0;rate=0" <> None
  /\ convert_audio_to_wav [] "audio/L16;rate=24000;channels=-3"
     = convert_audio_to_wav [] "audio/L16;rate=24000".
Proof. split; [reflexivity | split; [discriminate | reflexivity]]. Qed.

(** C2 (amended): [_convert_audio_to_wav] performs no validation of the
    descriptor. It fails ([struct.error]) exactly when one of the header
    values does not fit its unsigned field; when it succeeds the header
    declares one channel and the parsed (or default) values unchecked; a
    rate field or bit-depth field that does not parse leaves the default
    24000 Hz or 16 bits in place. *)
Theorem convert_audio_to_wav_unchecked d mime :
  let n := Z.of_nat (List.length d) in
  let '(bits, rate) := parse_mime mime in
  (convert_audio_to_wav d mime = None <->
     ~ (in_u32 (36 + n) /\ in_u32 rate /\ in_u32 (rate * (bits / 8))
        /\ in_u16 (bits / 8) /\ in_u16 bits))
  /\ (forall w, convert_audio_to_wav d mime = Some w ->
        read_wav_header w
        = Some (mk_wav_header (36 + n) 16 1 1 rate (rate * (bits / 8)) (bits / 8) bits n))
  /\ (Forall rate_unparsed (py_split ";" mime) -> rate = 24000)
  /\ (Forall bits_unparsed (py_split ";" mime) -> bits = 16).
Proof.
  intros n. pose proof (convert_audio_to_wav_spec d mime) as H. cbv zeta in H. fold n in H.
  pose proof (fold_mime_rate (py_split ";" mime) (16, 24000)) as Hr.
  pose proof (fold_mime_bits (py_split ";" mime) (16, 24000)) as Hb.
  unfold parse_mime in H |- *.
  destruct (fold_left mime_step (py_split ";" mime) (16, 24000)) as [bits rate].
  simpl in Hr, Hb. rewrite !Z.mul_1_l in H. rewrite H.
  assert (Hn : 0 <= n) by (unfold n; lia).
  assert (HB : fits_uint 4 (36 + n) && fits_uint 4 rate && fits_uint 4 (rate * (bits / 8))
               && fits_uint 2 (bits / 8) && fits_uint 2 bits && fits_uint 4 n = true
               <-> in_u32 (36 + n) /\ in_u32 rate /\ in_u32 (rate * (bits / 8))
                   /\ in_u16 (bits / 8) /\ in_u16 bits).
  { rewrite !andb_true_iff, !fits_u32_iff, !fits_u16_iff. unfold in_u32, in_u16.
    split; intros; repeat match goal with Hx : _ /\ _ |- _ => destruct Hx end;
      repeat split; lia. }
  split; [|split; [|split; assumption]].
  - destruct (_ && _) eqn:EB.
    + split; [discriminate|]. intros Hneg. exfalso. apply Hneg, HB. reflexivity.
    + split; [|reflexivity]. intros _ Hpos. apply HB in Hpos. congruence.
  - intros w Hw. destruct (_ && _) eqn:EB; [|discriminate].
    injection Hw as <-. destruct (proj1 HB eq_refl) as (? & ? & ? & ? & ?).
    apply read_wav_bytes; unfold in_u32, in_u16 in *; lia.
Qed.



(** C1: when every backend answer makes its adapter fail, or when neither
    Gemini nor Google Cloud TTS is importable, [generate_tts] on a
    non-blank text returns the reserved empty WAV instead of raising. That
    container is 44 bytes long, a well-formed PCM WAV whose header
    declares a data chunk of size 0 (36-byte RIFF size, mono, 16-bit,
    44100 Hz, byte rate 88200), with an empty payload. *)
Theorem generate_tts_exhausted rt bk text vc w :
  py_strip text <> "" ->
  all_backends_fail bk \/ (gemini_available rt = false /\ gcloud_available rt = false) ->
  fst (generate_tts rt bk text vc w) = Ok empty_wav
  /\ List.length empty_wav = 44%nat
  /\ read_wav_header empty_wav = Some (mk_wav_header 36 16 1 1 44100 88200 2 16 0)
  /\ wav_wellformed empty_wav = true
  /\ wav_payload empty_wav = [].
Proof.
  intros Htext Hcase.
  split; [|split; [reflexivity|split; [reflexivity|split; reflexivity]]].
  unfold generate_tts.
  destruct (String.eqb (py_strip text) "") eqn:E;
    [apply String.eqb_eq in E; contradiction|].
  cbv zeta.
  destruct Hcase as [Hfail | [Hg Hc]].
  - erewrite (bind_ok _ _ _ None); cbv beta iota;
      [|destruct (gemini_available rt); [apply stage_live_none, Hfail | reflexivity]].
    erewrite (bind_ok _ _ _ None); cbv beta iota;
      [|destruct (gemini_available rt); [apply stage_gemini_none, Hfail | reflexivity]].
    erewrite (bind_ok _ _ _ None); cbv beta iota;
      [reflexivity|destruct (_ && _); [apply stage_gcloud_none, Hfail | reflexivity]].
  - rewrite Hg, Hc, andb_false_r. reflexivity.
Qed.

Lemma generate_tts_exhausted_witness :
  fst (generate_tts rt_both bk_down "Hello" [] w0) = Ok empty_wav.
Proof.
  apply (generate_tts_exhausted rt_both bk_down "Hello" [] w0).
  - discriminate.
  - left. split; [|split]; intros; reflexivity.
Defined.

(** C6: no provider error ever leaves [generate_tts]: the only exception
    it raises is the [ValueError] for a text that is blank after
    [strip()]. *)
Theorem generate_tts_only_validation_error rt bk text vc w :
  match fst (generate_tts rt bk text vc w) with
  | Err e => py_strip text = "" /\ e = ValueError "text must be a non-empty string"
  | Ok _ => True
  end.
Proof.
  unfold generate_tts.
  destruct (String.eqb (py_strip text) "") eqn:E.
  - apply String.eqb_eq in E. simpl. split; [exact E | reflexivity].
  - pose proof (generate_tts_tail_never_raises rt bk text vc w) as H. cbv zeta in H |- *.
    destruct (fst _); [exact I | discriminate].
Qed.

(** C7: bad caller input fails at once, leaving the world untouched (no
    provider called, no store access, nothing logged): [generate_tts]
    on a text that is blank after [strip()], and [get_audio_url] on an
    empty cache key. *)
Theorem validation_first :
  (forall rt bk text vc w, py_strip text = "" ->
     generate_tts rt bk text vc w = (Err (ValueError "text must be a non-empty string"), w))
  /\ (forall rt bk text vc ttl w,
     get_audio_url rt bk text "" vc ttl w = (Err (ValueError "cache_key is required"), w)).
Proof.
  split.
  - intros rt bk text vc w H. unfold generate_tts. rewrite H. reflexivity.
  - intros. reflexivity.
Qed.

Lemma validation_first_witness :
  generate_tts rt_both bk_down "   " [] w0
  = (Err (ValueError "text must be a non-empty string"), w0).
Proof. apply (proj1 validation_first). reflexivity. Defined.


(** C4: [_stable_cache_key] is a function of the prefix, the text and
    the key/value mapping of [voice_config] only: two dicts built by
    inserting their entries in any two orders that map every key to the
    same value give the same key, whatever the SHA-256 function, because
    the items are sorted by key before [str] and the hash. *)
Theorem stable_cache_key_order_independent sha256_hexdigest prefix text items1 items2 :
  (forall k, dict_get (dict_of items1) k = dict_get (dict_of items2) k) ->
  stable_cache_key sha256_hexdigest prefix text (dict_of items1)
  = stable_cache_key sha256_hexdigest prefix text (dict_of items2).
Proof.
  intros H. unfold stable_cache_key.
  rewrite (sort_items_perm (dict_of items1) (dict_of items2)).
  - reflexivity.
  - apply dict_perm; [apply dict_of_nodup | apply dict_of_nodup | exact H].
  - apply dict_of_nodup.
Qed.

Lemma stable_cache_key_order_independent_witness :
  stable_cache_key (fun bs => string_of_Z (Z.of_nat (List.length bs))) "tts" "Hello"
    (dict_of [("voiceName", VStr "Leda"); ("style", VStr "game_show_host")])
  = stable_cache_key (fun bs => string_of_Z (Z.of_nat (List.length bs))) "tts" "Hello"
    (dict_of [("style", VStr "game_show_host"); ("voiceName", VStr "Leda")]).
Proof.
  apply stable_cache_key_order_independent. intros k. simpl.
  destruct (String.eqb k "voiceName") eqn:E1; destruct (String.eqb k "style") eqn:E2;
    try reflexivity.
  apply String.eqb_eq in E1. subst k. vm_compute in E2. discriminate.
Defined.

(** C5: once [get_audio_url] has answered [s] for a key, the store holds
    a non-empty entry [v] for that key from which [s] is the data URL,
    provided Google Cloud TTS never answers with empty audio (a LINEAR16
    answer carries its WAV header; the Live and Gemini adapters already
    raise on empty audio). A second call with the same key and voice
    configuration then returns [s] again after a single [GET], without
    synthesis or write: right away, and at any later time the entry is
    still alive. *)
Theorem get_audio_url_cached rt bk text1 text2 key vc ttl1 ttl2 w s w1 :
  (forall j req, gcloud_synthesize bk j req <> Ok []) ->
  get_audio_url rt bk text1 key vc ttl1 w = (Ok s, w1) ->
  exists v expiry,
    store w1 key = Some (v, expiry) /\ s = url_of (mime_of rt vc) v /\ v <> ""
    /\ get_audio_url rt bk text2 key vc ttl2 w1 = (Ok s, log_get w1 key)
    /\ (forall t, entry_alive (v, expiry) t = true ->
          get_audio_url rt bk text2 key vc ttl2 (with_clock w1 t)
          = (Ok s, log_get (with_clock w1 t) key)).
Proof.
  intros Hsyn H.
  destruct (String.eqb key "") eqn:Ek.
  { unfold get_audio_url in H. rewrite Ek in H. discriminate H. }
  apply String.eqb_neq in Ek.
  destruct (cache_miss w key) eqn:Hmiss.
  - rewrite (get_audio_url_miss_step _ _ _ _ _ _ _ Ek Hmiss) in H.
    unfold bind at 1 in H.
    destruct (generate_tts rt bk text1 vc (log_get w key)) as [[audio|err] w2] eqn:Eg;
      [|discriminate H].
    assert (Hv : b64encode audio <> "").
    { apply b64encode_nonempty.
      apply (results_generate_tts rt bk Hsyn text1 vc (log_get w key)). rewrite Eg. reflexivity. }
    set (expiry := if 0 <? ttl1 then Some (clock w2 + ttl1) else None).
    assert (Hw1 : store w1 key = Some (b64encode audio, expiry) /\ clock w1 = clock w2
                  /\ s = url_of (mime_of rt vc) (b64encode audio)).
    { unfold expiry. destruct (0 <? ttl1); cbv [bind redis_set ret] in H; inversion H; subst;
        simpl; rewrite String.eqb_refl; repeat split. }
    destruct Hw1 as (Hst & Hc & Hs).
    assert (Ha : entry_alive (b64encode audio, expiry) (clock w1) = true).
    { rewrite Hc. unfold expiry, entry_alive. cbn [snd].
      destruct (0 <? ttl1) eqn:Et; [|reflexivity].
      apply Z.ltb_lt in Et. apply Z.ltb_lt. lia. }
    exists (b64encode audio), expiry. rewrite Hs.
    split; [exact Hst|]. split; [reflexivity|]. split; [exact Hv|]. split.
    + exact (get_audio_url_hit rt bk text2 key vc ttl2 w1 _ _ Ek Hst Ha Hv).
    + intros t Ha'.
      exact (get_audio_url_hit rt bk text2 key vc ttl2 (with_clock w1 t) _ _ Ek Hst Ha' Hv).
  - unfold cache_miss in Hmiss.
    destruct (store w key) as [[v e]|] eqn:Es; [|discriminate Hmiss].
    apply orb_false_iff in Hmiss. destruct Hmiss as [Ha Hv].
    apply negb_false_iff in Ha. apply String.eqb_neq in Hv.
    rewrite (get_audio_url_hit _ _ _ _ _ _ _ _ _ Ek Es Ha Hv) in H.
    inversion H; subst.
    exists v, e. split; [exact Es|]. split; [reflexivity|]. split; [exact Hv|]. split.
    + exact (get_audio_url_hit rt bk text2 key vc ttl2 (log_get w key) v e Ek Es Ha Hv).
    + intros t Ha'.
      exact (get_audio_url_hit rt bk text2 key vc ttl2 (with_clock (log_get w key) t) v e
               Ek Es Ha' Hv).
Qed.

Lemma get_audio_url_cached_witness :
  get_audio_url rt_gc bk_one "Hi" "k" [] 60 (snd (get_audio_url rt_gc bk_one "Hi" "k" [] 60 w0))
  = (Ok "data:audio/wav;base64,AQ==",
     log_get (snd (get_audio_url rt_gc bk_one "Hi" "k" [] 60 w0)) "k").
Proof.
  destruct (get_audio_url_cached rt_gc bk_one "Hi" "Hi" "k" [] 60 60 w0
              "data:audio/wav;base64,AQ==" (snd (get_audio_url rt_gc bk_one "Hi" "k" [] 60 w0))
              ltac:(intros j req; discriminate) eq_refl)
    as [v [expiry [_ [_ [_ [H2 _]]]]]].
  exact H2.
Defined.

(** C8: on a miss (no live entry, or an empty one) with a non-empty key,
    [get_audio_url] runs [generate_tts] after the [GET], stores
    [base64(audio)] under the key with expiry [now + ttl] ([SETEX]) when
    [ttl > 0] and without expiry ([SET]) otherwise, and returns
    [data:<mime>;base64,<base64(audio)>]; the MIME type is
    [voice_config["mimeType"]] when truthy, else [TTS_AUDIO_MIME],
    which defaults to [audio/wav]. *)
Theorem get_audio_url_miss rt bk text key vc ttl w audio w2 :
  key <> "" ->
  cache_miss w key = true ->
  generate_tts rt bk text vc (log_get w key) = (Ok audio, w2) ->
  get_audio_url rt bk text key vc ttl w =
    (Ok ("data:" ++ mime_of rt vc ++ ";base64," ++ b64encode audio)%string,
     mk_world (fun k => if String.eqb k key
                        then Some (b64encode audio, if 0 <? ttl then Some (clock w2 + ttl) else None)
                        else store w2 k)
              (clock w2) (live_client w2)
              (trace w2 ++ [EvSet key (b64encode audio) (if 0 <? ttl then Some ttl else None)]))
  /\ (truthy (get_default vc "mimeType" VNone) = true ->
      mime_of rt vc = py_str (get_default vc "mimeType" VNone))
  /\ (truthy (get_default vc "mimeType" VNone) = false -> env rt "TTS_AUDIO_MIME" = None ->
      mime_of rt vc = "audio/wav").
Proof.
  intros Hk Hmiss Hgen. split; [|split].
  - rewrite (get_audio_url_miss_step _ _ _ _ _ _ _ Hk Hmiss).
    unfold bind at 1. rewrite Hgen. destruct (0 <? ttl); reflexivity.
  - intros Hm. unfold mime_of, get_or. rewrite Hm. reflexivity.
  - intros Hm He. unfold mime_of, get_or. rewrite Hm.
    unfold DEFAULT_AUDIO_MIME, getenv. rewrite He. reflexivity.
Qed.

Lemma get_audio_url_miss_witness :
  fst (get_audio_url rt_gc bk_one "Hi" "k" [] 60 w0) = Ok "data:audio/wav;base64,AQ==".
Proof.
  rewrite (proj1 (get_audio_url_miss rt_gc bk_one "Hi" "k" [] 60 w0 [Byte.x01]
                    (snd (generate_tts rt_gc bk_one "Hi" [] (log_get w0 "k")))
                    ltac:(discriminate) eq_refl eq_refl)).
  reflexivity.
Defined.

(** C9: in [_generate_tts_gcloud], a requested voice "Leda" or "Aoede",
    or the style "game_show_host", gives the request voice name
    "en-US-Studio-O", and every synthesis request the adapter issues is
    that request. *)
Theorem gcloud_substitute_voice rt bk text vc w :
  dict_get vc "voiceName" = Some (VStr "Leda") \/ dict_get vc "voiceName" = Some (VStr "Aoede")
  \/ dict_get vc "style" = Some (VStr "game_show_host") ->
  gc_voice_name (gcloud_request_of rt text vc) = VStr "en-US-Studio-O"
  /\ (forall req, In (EvGcloudSynthesize req) (trace (snd (generate_tts_gcloud rt bk text vc w))) ->
       In (EvGcloudSynthesize req) (trace w) \/ req = gcloud_request_of rt text vc).
Proof.
  intros H. split.
  - unfold gcloud_request_of, get_or, get_default. cbv zeta. simpl gc_voice_name.
    destruct H as [H|[H|H]]; rewrite H;
      [destruct (is_str _ "game_show_host") | destruct (is_str _ "game_show_host") |];
      reflexivity.
  - intros req Hin. unfold generate_tts_gcloud in Hin.
    destruct (gcloud_available rt); [|left; exact Hin].
    cbv [negb bind count_events emit lift] in Hin.
    destruct (gcloud_client bk _); simpl in Hin;
      rewrite ?in_app_iff in Hin; simpl in Hin;
      decompose [or False] Hin; try (left; assumption); try discriminate;
      right; congruence.
Qed.

Lemma gcloud_substitute_voice_witness :
  gc_voice_name (gcloud_request_of rt_gc "Hi" [("voiceName", VStr "Aoede")])
  = VStr "en-US-Studio-O".
Proof.
  exact (proj1 (gcloud_substitute_voice rt_gc bk_one "Hi" [("voiceName", VStr "Aoede")] w0
                  (or_intror (or_introl eq_refl)))).
Defined.

(* ================================================================== *)
(** * Further properties of the code *)

(** [generate_tts] never touches the cache: the store and the clock are
    left as they were, no [GET] or [SET] is logged, and the trace is only
    extended. *)
Theorem generate_tts_no_cache rt bk text vc w :
  store (snd (generate_tts rt bk text vc w)) = store w
  /\ clock (snd (generate_tts rt bk text vc w)) = clock w
  /\ filter is_cache_event (trace (snd (generate_tts rt bk text vc w)))
     = filter is_cache_event (trace w)
  /\ exists suf, trace (snd (generate_tts rt bk text vc w)) = trace w ++ suf.
Proof.
  destruct (adds_generate_tts rt bk text vc w) as (Hs & Hc & suf & Ht & Hf).
  split; [exact Hs|]. split; [exact Hc|]. split; [|exists suf; exact Ht].
  rewrite Ht, filter_app, (filter_added_none _ _ _ Hf); [apply app_nil_r|].
  intros [] H; try reflexivity; destruct H.
Qed.

(** When the provider is not "gcloud", or the Google Cloud library is
    not importable, [generate_tts] creates no Google Cloud client and
    sends no Google Cloud request, even when every other provider failed. *)
Theorem generate_tts_gcloud_routing rt bk text vc w :
  is_str (provider_of rt vc) "gcloud" = false \/ gcloud_available rt = false ->
  filter is_gcloud_event (trace (snd (generate_tts rt bk text vc w)))
  = filter is_gcloud_event (trace w).
Proof.
  intros Hp. destruct (adds_generate_tts rt bk text vc w) as (_ & _ & suf & Ht & Hf).
  rewrite Ht, filter_app, (filter_added_none _ _ _ Hf); [apply app_nil_r|].
  intros [] H; try reflexivity; cbn in H; destruct Hp; intuition congruence.
Qed.

Lemma generate_tts_gcloud_routing_witness :
  is_str (provider_of rt_both [("provider", VStr "gemini")]) "gcloud" = false
  /\ filter is_gcloud_event (trace (snd (generate_tts rt_both bk_down "hi"
                                          [("provider", VStr "gemini")] w0)))
     = filter is_gcloud_event (trace w0).
Proof.
  split; [reflexivity|].
  apply generate_tts_gcloud_routing. left. reflexivity.
Defined.

(** When the Gemini library is not importable, [generate_tts] creates no
    Live client, opens no Live session and sends no Gemini request. *)
Theorem generate_tts_gemini_unavailable rt bk text vc w :
  gemini_available rt = false ->
  filter is_gemini_event (trace (snd (generate_tts rt bk text vc w)))
  = filter is_gemini_event (trace w).
Proof.
  intros Hg. destruct (adds_generate_tts rt bk text vc w) as (_ & _ & suf & Ht & Hf).
  rewrite Ht, filter_app, (filter_added_none _ _ _ Hf); [apply app_nil_r|].
  intros [] H; try reflexivity; cbn in H; intuition congruence.
Qed.

Lemma generate_tts_gemini_unavailable_witness :
  gemini_available rt_gc = false
  /\ filter is_gemini_event (trace (snd (generate_tts rt_gc bk_one "hi" [] w0)))
     = filter is_gemini_event (trace w0).
Proof. split; [reflexivity | apply generate_tts_gemini_unavailable; reflexivity]. Defined.

(** Every Live session [generate_tts] opens sends the request built from
    [voice_config]: its model starts with "models/" and its text is the
    stripped input text. *)
Theorem generate_tts_live_request rt bk text vc w req :
  In (EvLiveSession req) (trace (snd (generate_tts rt bk text vc w))) ->
  ~ In (EvLiveSession req) (trace w) ->
  req = live_request_of rt text vc
  /\ startswith (live_model req) "models/" = true
  /\ live_text req = py_strip text.
Proof.
  intros Hin Hn. destruct (adds_generate_tts rt bk text vc w) as (_ & _ & suf & Ht & Hf).
  rewrite Ht in Hin. apply (in_added _ _ _ Hin) in Hn.
  rewrite Forall_forall in Hf. destruct (Hf _ Hn) as [_ ->].
  split; [reflexivity | split; [apply live_model_prefix | reflexivity]].
Qed.

Lemma generate_tts_live_request_witness :
  In (EvLiveSession (live_request_of rt_key "hi" []))
     (trace (snd (generate_tts rt_key bk_down "hi" [] w0)))
  /\ live_text (live_request_of rt_key "hi" []) = py_strip "hi".
Proof.
  split; [find_in|].
  apply (generate_tts_live_request rt_key bk_down "hi" [] w0); [find_in | intros []].
Defined.

(** Every Gemini stream request [generate_tts] sends asks the model
    "gemini-2.5-flash-preview-tts" for the voice "Leda", whatever voice
    was requested, with the prompt, a newline and the stripped text. *)
Theorem generate_tts_gemini_request rt bk text vc w req :
  In (EvGeminiStream req) (trace (snd (generate_tts rt bk text vc w))) ->
  ~ In (EvGeminiStream req) (trace w) ->
  gem_model req = "gemini-2.5-flash-preview-tts"
  /\ gem_voice req = VStr "Leda"
  /\ gem_text req = (py_str (get_or vc "prompt" (VStr (DEFAULT_GCLOUD_TTS_PROMPT (env rt))))
                     ++ newline ++ py_strip text)%string.
Proof.
  intros Hin Hn. destruct (adds_generate_tts rt bk text vc w) as (_ & _ & suf & Ht & Hf).
  rewrite Ht in Hin. apply (in_added _ _ _ Hin) in Hn.
  rewrite Forall_forall in Hf. destruct (Hf _ Hn) as [_ ->].
  repeat split.
Qed.

Lemma generate_tts_gemini_request_witness :
  In (EvGeminiStream (mk_gemini_request "gemini-2.5-flash-preview-tts" (VStr "Leda")
                        (DEFAULT_GCLOUD_TTS_PROMPT env0 ++ newline ++ "hi")))
     (trace (snd (generate_tts rt_key bk_down "hi"
                    [("provider", VStr "gemini"); ("voiceName", VStr "Puck")] w0)))
  /\ gem_voice (mk_gemini_request "gemini-2.5-flash-preview-tts" (VStr "Leda")
                  (DEFAULT_GCLOUD_TTS_PROMPT env0 ++ newline ++ "hi"))
     = VStr "Leda".
Proof.
  split; [find_in|].
  apply (generate_tts_gemini_request rt_key bk_down "hi"
           [("provider", VStr "gemini"); ("voiceName", VStr "Puck")] w0); [find_in | intros []].
Defined.

(** [_gemini_live_client] is created at most once: if the trace records
    one creation exactly when the client is cached, this stays true after
    [generate_tts] and after [get_audio_url]. *)
Theorem live_client_created_once rt bk text key vc ttl w :
  client_inv w ->
  client_inv (snd (generate_tts rt bk text vc w))
  /\ client_inv (snd (get_audio_url rt bk text key vc ttl w)).
Proof.
  intros H. split; [exact (inv_generate_tts rt bk text vc w H)
                   | exact (inv_get_audio_url rt bk text key vc ttl w H)].
Qed.

Lemma live_client_created_once_witness :
  client_inv w0 /\ client_inv (snd (generate_tts rt_key bk_down "hi" [] w0))
  /\ client_inv (snd (get_audio_url rt_key bk_down "hi" "k" [] 60 w0)).
Proof.
  assert (H : client_inv w0) by reflexivity.
  split; [exact H | exact (live_client_created_once rt_key bk_down "hi" "k" [] 60 w0 H)].
Defined.

(** One call of [generate_tts] opens at most two Live sessions when the
    event loop is idle (the [RuntimeError] retry with [asyncio.run]), and
    at most one otherwise. *)
Theorem generate_tts_live_sessions rt bk text vc w :
  (List.length (filter is_live_session (trace (snd (generate_tts rt bk text vc w))))
   <= List.length (filter is_live_session (trace w))
      + match event_loop rt with LoopIdle => 2 | _ => 1 end)%nat.
Proof.
  destruct (lsam_generate_tts rt bk text vc w) as [suf [Ht Hl]].
  rewrite Ht, filter_app, length_app. lia.
Qed.

(** [get_audio_url] changes no cache entry but the one of its key, and
    never the clock. *)
Theorem get_audio_url_other_keys rt bk text key vc ttl w k :
  k <> key ->
  store (snd (get_audio_url rt bk text key vc ttl w)) k = store w k
  /\ clock (snd (get_audio_url rt bk text key vc ttl w)) = clock w.
Proof.
  intros Hk. destruct (only_key_get_audio_url rt bk text key vc ttl w) as [Hc Hs].
  split; [exact (Hs k Hk) | exact Hc].
Qed.

Lemma get_audio_url_other_keys_witness :
  "b" <> "a"
  /\ store (snd (get_audio_url rt_gc bk_one "hi" "a" [] 60 w0)) "b" = store w0 "b"
  /\ clock (snd (get_audio_url rt_gc bk_one "hi" "a" [] 60 w0)) = clock w0.
Proof. split; [discriminate | apply get_audio_url_other_keys; discriminate]. Defined.

(** When [get_audio_url] raises, it has written nothing: the store and
    the clock are as before. *)
Theorem get_audio_url_error_no_write rt bk text key vc ttl w e :
  fst (get_audio_url rt bk text key vc ttl w) = Err e ->
  store (snd (get_audio_url rt bk text key vc ttl w)) = store w
  /\ clock (snd (get_audio_url rt bk text key vc ttl w)) = clock w.
Proof.
  destruct (String.eqb key "") eqn:Ek.
  { unfold get_audio_url. rewrite Ek. intros _. split; reflexivity. }
  apply String.eqb_neq in Ek. destruct (cache_miss w key) eqn:Em.
  - rewrite (get_audio_url_miss_step _ _ _ _ _ _ _ Ek Em). unfold bind.
    pose proof (adds_generate_tts rt bk text vc (log_get w key)) as (Hs & Hc & _).
    destruct (generate_tts rt bk text vc (log_get w key)) as [[a|e'] w2].
    + unfold redis_set, ret. destruct (0 <? ttl); discriminate.
    + intros _. unfold log_get in Hs, Hc. cbn [fst snd store clock] in *. split; assumption.
  - unfold cache_miss in Em. destruct (store w key) as [[v ex]|] eqn:Es; [|discriminate].
    apply orb_false_iff in Em as [Ea Ev]. apply negb_false_iff in Ea.
    apply String.eqb_neq in Ev.
    rewrite (get_audio_url_hit rt bk text key vc ttl w v ex Ek Es Ea Ev). discriminate.
Qed.

Lemma get_audio_url_error_no_write_witness :
  fst (get_audio_url rt_gc bk_one "hi" "" [] 60 w0) = Err (ValueError "cache_key is required")
  /\ store (snd (get_audio_url rt_gc bk_one "hi" "" [] 60 w0)) = store w0.
Proof.
  split; [reflexivity|].
  exact (proj1 (get_audio_url_error_no_write rt_gc bk_one "hi" "" [] 60 w0 _ eq_refl)).
Defined.

(** [get_audio_url] does not validate the text: with a blank text and a
    live non-empty entry under the key, it returns the cached URL after a
    single [GET], although [generate_tts] rejects that text. *)
Theorem get_audio_url_blank_text_cached rt bk text key vc ttl w v ex :
  py_strip text = "" -> key <> "" -> store w key = Some (v, ex) ->
  entry_alive (v, ex) (clock w) = true -> v <> "" ->
  get_audio_url rt bk text key vc ttl w = (Ok (url_of (mime_of rt vc) v), log_get w key)
  /\ forall w', fst (generate_tts rt bk text vc w') = Err (ValueError "text must be a non-empty string").
Proof.
  intros Ht Hk Es Ea Hv. split; [exact (get_audio_url_hit rt bk text key vc ttl w v ex Hk Es Ea Hv)|].
  intros w'. unfold generate_tts. rewrite Ht. reflexivity.
Qed.

Lemma get_audio_url_blank_text_cached_witness :
  fst (get_audio_url rt_gc bk_one " " "k" [] 60
         (mk_world (fun k => if String.eqb k "k" then Some ("AQ==", None) else None) 0 false []))
  = Ok (url_of (mime_of rt_gc []) "AQ==").
Proof.
  rewrite (proj1 (get_audio_url_blank_text_cached rt_gc bk_one " " "k" [] 60
                    (mk_world (fun k => if String.eqb k "k" then Some ("AQ==", None) else None)
                       0 false [])
                    "AQ==" None eq_refl ltac:(discriminate) eq_refl eq_refl ltac:(discriminate))).
  reflexivity.
Defined.

(** [generate_tts] never returns empty audio unless Google Cloud TTS
    answered with empty audio: an empty Live or Gemini answer is an error,
    and the final fallback is the 44-byte empty WAV. *)
Theorem generate_tts_nonempty rt bk text vc w a :
  (forall j req, gcloud_synthesize bk j req <> Ok []) ->
  fst (generate_tts rt bk text vc w) = Ok a -> a <> [].
Proof. intros Hsyn E. exact (results_generate_tts rt bk Hsyn text vc w a E). Qed.

Lemma generate_tts_nonempty_witness :
  fst (generate_tts rt_gc bk_one "hi" [] w0) = Ok [Byte.x01] /\ [Byte.x01] <> [].
Proof.
  split; [reflexivity|].
  apply (generate_tts_nonempty rt_gc bk_one "hi" [] w0);
    [intros j req; discriminate | reflexivity].
Defined.

(** [_generate_tts_gcloud_v1beta1] raises only a [RuntimeError], or the
    [ValueError] of a missing [GEMINI_API_KEY]: every stream failure is
    re-raised as a [RuntimeError]. *)
Theorem v1beta1_errors rt bk text v p w e :
  fst (generate_tts_gcloud_v1beta1 rt bk text v p w) = Err e ->
  is_runtime_error e = true \/ e = ValueError "GEMINI_API_KEY environment variable is not set".
Proof.
  revert w e.
  change (raises (fun e => is_runtime_error e = true
                           \/ e = ValueError "GEMINI_API_KEY environment variable is not set")
                 (generate_tts_gcloud_v1beta1 rt bk text v p)).
  unfold generate_tts_gcloud_v1beta1. destruct (negb _); [apply raises_raise; left; reflexivity|].
  cbv zeta. apply raises_bind; [apply raises_api_key; right; reflexivity | intros _].
  apply raises_bind; [apply raises_count | intros i].
  apply raises_bind; [apply raises_emit | intros _].
  apply raises_lift. intros e E. left. exact (gemini_finish_err _ _ E).
Qed.

Lemma v1beta1_errors_witness :
  exists e, fst (generate_tts_gcloud_v1beta1 rt_key bk_down "hi" (VStr "Leda") (VStr "p") w0)
            = Err e /\ is_runtime_error e = true.
Proof.
  eexists. split; [reflexivity|].
  destruct (v1beta1_errors rt_key bk_down "hi" (VStr "Leda") (VStr "p") w0 _ eq_refl) as [H|H];
    [exact H | discriminate H].
Defined.

(** With [GEMINI_API_KEY] unset or empty, [_generate_tts_async] (when the
    Live client is not cached yet) and [_generate_tts_gcloud_v1beta1]
    raise the [ValueError] of the missing key before any request, leaving
    the world as it was. *)
Theorem gemini_key_missing rt bk text vc v p w :
  match env rt "GEMINI_API_KEY" with Some k => k = "" | None => True end ->
  (live_client w = false -> py_strip text <> "" ->
   generate_tts_async rt bk text vc w
   = (Err (ValueError "GEMINI_API_KEY environment variable is not set"), w))
  /\ (gemini_available rt = true ->
      generate_tts_gcloud_v1beta1 rt bk text v p w
      = (Err (ValueError "GEMINI_API_KEY environment variable is not set"), w)).
Proof.
  intros H.
  assert (Hk : forall w', get_gemini_api_key rt w'
                          = (Err (ValueError "GEMINI_API_KEY environment variable is not set"), w')).
  { intros w'. unfold get_gemini_api_key. revert H.
    destruct (env rt "GEMINI_API_KEY") as [k|]; intros H; [subst k|]; reflexivity. }
  split.
  - intros Hl Ht. unfold generate_tts_async. rewrite (proj2 (String.eqb_neq _ _) Ht). cbv zeta.
    assert (Hc : get_gemini_live_client rt w
                 = (Err (ValueError "GEMINI_API_KEY environment variable is not set"), w)).
    { unfold get_gemini_live_client, bind, get_world. cbv beta iota. rewrite Hl, Hk. reflexivity. }
    unfold bind at 1. rewrite Hc. reflexivity.
  - intros Ha. unfold generate_tts_gcloud_v1beta1. rewrite Ha. cbv zeta.
    cbn [negb]. unfold bind at 1. cbv beta. rewrite Hk. reflexivity.
Qed.

Lemma gemini_key_missing_witness :
  generate_tts_async rt_both bk_down "hi" [] w0
  = (Err (ValueError "GEMINI_API_KEY environment variable is not set"), w0).
Proof.
  apply (proj1 (gemini_key_missing rt_both bk_down "hi" [] (VStr "Leda") (VStr "p") w0 I));
    [reflexivity | vm_compute; discriminate].
Defined.

(** When Gemini is importable, the text is not blank, the Live client is
    cached or can be created, and the Live session answers with audio,
    [generate_tts] returns the WAV of that answer, and the Live session is
    the only provider request it sends. *)
Theorem generate_tts_live_first rt bk text vc w wav :
  gemini_available rt = true -> py_strip text <> "" ->
  (live_client w = true \/ exists k, env rt "GEMINI_API_KEY" = Some k /\ k <> "") ->
  live_finish (live_session bk (List.length (filter is_live_session (trace w)))
                 (live_request_of rt text vc)) = Ok wav ->
  fst (generate_tts rt bk text vc w) = Ok wav
  /\ filter is_provider_call (trace (snd (generate_tts rt bk text vc w)))
     = filter is_provider_call (trace w) ++ [EvLiveSession (live_request_of rt text vc)].
Proof.
  intros Ha Ht Hk Hl.
  destruct (async_live_ok rt bk text vc w wav Ht Hk Hl) as [w1 [Hasync Htr]].
  assert (Hg : generate_tts rt bk text vc w = (Ok wav, w1)).
  { unfold generate_tts. rewrite (proj2 (String.eqb_neq _ _) Ht). cbv zeta. rewrite Ha.
    unfold bind at 1. rewrite (stage_live_ok _ _ _ _ _ _ _ Hasync). reflexivity. }
  rewrite Hg. split; [reflexivity|]. cbn [snd].
  rewrite Htr, !filter_app. destruct (live_client w); reflexivity.
Qed.

Lemma generate_tts_live_first_witness :
  fst (generate_tts rt_key bk_live "hi" [] w0)
  = live_finish (live_session bk_live 0 (live_request_of rt_key "hi" [])).
Proof.
  apply (generate_tts_live_first rt_key bk_live "hi" [] w0);
    [reflexivity | vm_compute; discriminate
    | right; exists "key"; split; [reflexivity | discriminate] | reflexivity].
Defined.

(** [_pcm_to_wav] for any parameters whose header fields fit: the result
    is 44 bytes longer than the PCM data, its header reads back as RIFF
    size [36 + n], format chunk size 16, PCM format 1, the given channel
    count and rate, byte rate [rate * channels * width], block align
    [channels * width], [8 * width] bits and data size [n], and the data
    follows unchanged. *)
Theorem pcm_to_wav_layout pcm rate ch sw :
  let n := Z.of_nat (List.length pcm) in
  36 + n < 2 ^ 32 -> 0 <= ch < 2 ^ 16 -> 0 <= rate < 2 ^ 32 ->
  0 <= rate * ch * sw < 2 ^ 32 -> 0 <= ch * sw < 2 ^ 16 -> 0 <= sw * 8 < 2 ^ 16 ->
  exists bs, pcm_to_wav pcm rate ch sw = Some bs
    /\ List.length bs = (44 + List.length pcm)%nat
    /\ read_wav_header bs
       = Some (mk_wav_header (36 + n) 16 1 ch rate (rate * ch * sw) (ch * sw) (sw * 8) n)
    /\ wav_payload bs = pcm.
Proof.
  intros n H1 H2 H3 H4 H5 H6.
  pose proof (pcm_to_wav_spec pcm rate ch sw) as Hs. cbv zeta in Hs. fold n in Hs.
  assert (Hn : 0 <= n) by (unfold n; lia).
  change (2 ^ 32) with 4294967296 in *. change (2 ^ 16) with 65536 in *.
  rewrite (proj2 (fits_u32_iff (36 + n))), (proj2 (fits_u16_iff ch)), (proj2 (fits_u32_iff rate)),
    (proj2 (fits_u32_iff (rate * ch * sw))), (proj2 (fits_u16_iff (ch * sw))),
    (proj2 (fits_u16_iff (sw * 8))), (proj2 (fits_u32_iff n)) in Hs by lia.
  eexists. split; [exact Hs|]. split; [apply wav_bytes_length|]. split; [|apply wav_payload_wav_bytes].
  apply read_wav_bytes; unfold in_u32, in_u16; change (2 ^ 32) with 4294967296;
    change (2 ^ 16) with 65536; lia.
Qed.

Lemma pcm_to_wav_layout_witness :
  exists bs, pcm_to_wav [Byte.x01; Byte.x00; Byte.x02; Byte.x00] 8000 2 2 = Some bs
    /\ List.length bs = 48%nat
    /\ read_wav_header bs = Some (mk_wav_header 40 16 1 2 8000 32000 4 16 4)
    /\ wav_payload bs = [Byte.x01; Byte.x00; Byte.x02; Byte.x00].
Proof.
  apply (pcm_to_wav_layout [Byte.x01; Byte.x00; Byte.x02; Byte.x00] 8000 2 2);
    vm_compute; repeat split; discriminate.
Defined.

(** [get_redis_client] pings the server at most once: if a client is
    cached exactly when one ping was sent, this stays true after a call,
    whatever the environment and the server answer. *)
Theorem get_redis_client_pings_once env lib m :
  redis_inv m -> redis_inv (snd (get_redis_client env lib m)).
Proof.
  unfold redis_inv, get_redis_client.
  destruct (redis_client m) as [c|] eqn:Ec; [intros H; cbn [snd]; rewrite Ec; exact H|].
  intros H. destruct (make_redis_client env lib) as [c|e]; cbn [snd]; [|rewrite Ec; exact H].
  destruct (ping lib (pings m) c); cbn; rewrite H; reflexivity.
Qed.

Lemma get_redis_client_pings_once_witness :
  redis_inv (mk_redis_module None 0)
  /\ redis_inv (snd (get_redis_client env0 lib_down (mk_redis_module None 0))).
Proof.
  assert (H : redis_inv (mk_redis_module None 0)) by reflexivity.
  split; [exact H | exact (get_redis_client_pings_once env0 lib_down _ H)].
Defined.

(** [_redis_client] is assigned before [ping()]: when the ping fails with
    a connection error, [get_redis_client] raises a [ValueError], but the
    next call returns the same unreachable client without a new ping. *)
Theorem get_redis_client_failed_ping_cached env lib m c msg :
  redis_client m = None -> make_redis_client env lib = Ok c ->
  ping lib (pings m) c = PingConnError msg ->
  fst (get_redis_client env lib m) = Err (ValueError ("Failed to connect to Redis: " ++ msg))
  /\ get_redis_client env lib (snd (get_redis_client env lib m))
     = (Ok c, snd (get_redis_client env lib m)).
Proof.
  intros Hm Hc Hp. unfold get_redis_client. rewrite Hm, Hc, Hp. split; reflexivity.
Qed.

Lemma get_redis_client_failed_ping_cached_witness :
  fst (get_redis_client env0 lib_down (mk_redis_module None 0))
  = Err (ValueError "Failed to connect to Redis: Connection refused").
Proof.
  exact (proj1 (get_redis_client_failed_ping_cached env0 lib_down (mk_redis_module None 0)
                  (Direct "localhost" 6379 None 0) "Connection refused"
                  eq_refl ltac:(vm_compute; reflexivity) eq_refl)).
Defined.



(** An empty [REDIS_URL] counts as unset: the client is the direct
    connection to [REDIS_HOST] (default "localhost"), the parsed port and
    database, and [REDIS_PASSWORD]. *)
Theorem make_redis_client_empty_url env lib port db :
  (env "REDIS_URL" = None \/ env "REDIS_URL" = Some "") ->
  int_env env "REDIS_PORT" "6379" = Ok port -> int_env env "REDIS_DB" "0" = Ok db ->
  make_redis_client env lib
  = Ok (Direct (getenv env "REDIS_HOST" "localhost") port (env "REDIS_PASSWORD") db).
Proof.
  intros Hu Hp Hd. unfold make_redis_client. rewrite Hp, Hd.
  destruct Hu as [Hu|Hu]; rewrite Hu; reflexivity.
Qed.

Lemma make_redis_client_empty_url_witness :
  make_redis_client (fun k => if String.eqb k "REDIS_URL" then Some "" else None) lib_up
  = Ok (Direct "localhost" 6379 None 0).
Proof.
  rewrite (make_redis_client_empty_url
             (fun k => if String.eqb k "REDIS_URL" then Some "" else None) lib_up 6379 0
             (or_intror eq_refl) ltac:(vm_compute; reflexivity) ltac:(vm_compute; reflexivity)).
  reflexivity.
Defined.
